(** * isfreader: a shallow embedding of [py_isfreader.py]

    The development follows the module top to bottom: the Python and NumPy
    primitives the module calls, the three dictionaries of the header
    schema, [split_isf_header], [parse_isf_header] and [parse_isf_data],
    and then the properties of the specification.

    Conventions.
    - [bytes] objects are [list byte]; [str] objects are [string], one
      character per Latin-1 code point, so that [.decode('latin1')] is
      [string_of_list_byte].
    - A Python [dict] that is updated is a [gmap]; a dictionary literal is
      the list of its items.
    - Python [float] and NumPy [float64] are primitive binary64 floats.
    - An exception is a value of [exn]; a call that may raise returns a
      [result].
    - NumPy is modelled as releases 2.0 to 2.2 behave on Linux: [arange]
      yields int64, a Python int operand is cast to the array's integer
      type (out of range: OverflowError), an int array combined with a
      Python float gives float64, and [np.array] of two rows of different
      lengths raises ValueError (releases before 1.24 built an object
      array instead).  An operand that is [None] raises TypeError at the
      first element it meets, and nothing on an empty array.  Memory
      limits are not modelled: an array is given whatever its length. *)

From Stdlib Require Import ZArith List Lia Bool.
From Stdlib Require Import Strings.String Strings.Ascii Strings.Byte.
From Stdlib Require Import Floats.PrimFloat Floats.SpecFloat Floats.FloatOps.
From stdpp Require Import gmap strings list.

Local Open Scope string_scope.
Local Open Scope Z_scope.

(** ** Exceptions and results *)

Inductive exn : Set :=
| InvalidFileError
| IndexError
| ValueError
| TypeError
| OverflowError
| RecursionError
| KeyError.

Inductive result (A : Type) : Type :=
| Ok (a : A)
| Raise (e : exn).

Arguments Ok {A} a.
Arguments Raise {A} e.

Definition rbind {A B} (r : result A) (k : A -> result B) : result B :=
  match r with
  | Ok a => k a
  | Raise e => Raise e
  end.

Notation "'let?' x ':=' r 'in' k" := (rbind r (fun x => k))
  (at level 10, x name, r at level 100, k at level 200).
Notation "'let?' ' p ':=' r 'in' k" := (rbind r (fun x => let 'p := x in k))
  (at level 10, p pattern, r at level 100, k at level 200).

(** A [for] loop whose body may raise: the first exception ends the loop. *)
Fixpoint for_each {S A} (body : S -> A -> result S) (s : S) (l : list A)
  : result S :=
  match l with
  | [] => Ok s
  | a :: l' => let? s' := body s a in for_each body s' l'
  end.

(** ** Python values stored in the header *)

Inductive pyval : Type :=
| PyNone
| PyInt (z : Z)
| PyFloat (f : float)
| PyStr (s : string).

(** ** [str] methods *)

Module Str.

(** [sub in s] *)
Fixpoint contains (sub s : string) : bool :=
  String.prefix sub s ||
  match s with
  | EmptyString => false
  | String _ s' => contains sub s'
  end.

Definition mem (c : ascii) (chars : list ascii) : bool :=
  existsb (Ascii.eqb c) chars.

(** [s.lstrip(chars)] *)
Fixpoint lstrip (chars : list ascii) (s : string) : string :=
  match s with
  | EmptyString => EmptyString
  | String c s' => if mem c chars then lstrip chars s' else s
  end.

(** [s.rstrip(chars)] *)
Fixpoint rstrip (chars : list ascii) (s : string) : string :=
  match s with
  | EmptyString => EmptyString
  | String c s' =>
      match rstrip chars s' with
      | EmptyString => if mem c chars then EmptyString else String c EmptyString
      | r => String c r
      end
  end.

(** [s.strip(chars)] *)
Definition strip (chars : list ascii) (s : string) : string :=
  rstrip chars (lstrip chars s).

(** [s.split(sep)] for a separator of one character *)
Fixpoint split (sep : ascii) (s : string) : list string :=
  match s with
  | EmptyString => [EmptyString]
  | String c s' =>
      if Ascii.eqb c sep then EmptyString :: split sep s'
      else match split sep s' with
           | [] => [String c EmptyString]
           | t :: ts => String c t :: ts
           end
  end.

(** [s.find(c)] for a string [c] of one character: the first index, or -1 *)
Fixpoint find (c : ascii) (s : string) : Z :=
  match s with
  | EmptyString => -1
  | String d s' =>
      if Ascii.eqb d c then 0
      else let i := find c s' in if i <? 0 then -1 else i + 1
  end.

(** [s.split(c, 1)] for a string [c] of one character: one or two pieces *)
Fixpoint split1 (c : ascii) (s : string) : list string :=
  match s with
  | EmptyString => [EmptyString]
  | String d s' =>
      if Ascii.eqb d c then [EmptyString; s']
      else match split1 c s' with
           | t :: ts => String d t :: ts
           | [] => [String d EmptyString]
           end
  end.

(** [s.replace(old, '')] for a non-empty [old]: the occurrences are found
    from the left and do not overlap.  [skip] counts the characters of
    the current occurrence that are still to be dropped. *)
Fixpoint remove_from (old : string) (skip : nat) (s : string) : string :=
  match s with
  | EmptyString => EmptyString
  | String c s' =>
      match skip with
      | S k => remove_from old k s'
      | O =>
          if String.prefix old s
          then remove_from old (Nat.pred (String.length old)) s'
          else String c (remove_from old O s')
      end
  end.

Definition remove_all (old s : string) : string := remove_from old O s.

End Str.

(** ** The built-in conversions [int] and [float] on a [str]

    Both follow CPython: white space around the literal is ignored, single
    underscores may separate digits, and anything else raises ValueError.
    Of the characters of Latin-1, CPython treats tab, line feed, vertical
    tab, form feed, carriage return and space as white space here, and
    also U+0085 and U+00A0, which it first rewrites to a space.  (The limit
    on the number of digits that CPython 3.11 added to [int] is not
    modelled.) *)

Module Builtins.

Definition code (c : ascii) : Z := Z.of_N (N_of_ascii c).

Definition is_space (c : ascii) : bool :=
  let n := code c in
  ((9 <=? n) && (n <=? 13)) || (n =? 32) || (n =? 133) || (n =? 160).

Definition digit_of (c : ascii) : option Z :=
  let n := code c in
  if (48 <=? n) && (n <=? 57) then Some (n - 48) else None.

Definition is_digit (c : ascii) : bool :=
  match digit_of c with Some _ => true | None => false end.

Fixpoint skip_spaces (s : string) : string :=
  match s with
  | String c s' => if is_space c then skip_spaces s' else s
  | EmptyString => s
  end.

Definition all_spaces (s : string) : bool :=
  match skip_spaces s with EmptyString => true | _ => false end.

(** An optional sign: [true] for a minus. *)
Definition sign (s : string) : bool * string :=
  match s with
  | String "-" s' => (true, s')
  | String "+" s' => (false, s')
  | _ => (false, s)
  end.

(** The digits of an [int] literal, read up to the first character that
    is neither a digit nor an underscore.  [us] tells that the previous
    character was an underscore: two in a row, or one at the end, make
    the literal invalid. *)
Fixpoint int_digits (acc : Z) (us : bool) (s : string)
  : option (Z * string) :=
  match s with
  | EmptyString => if us then None else Some (acc, s)
  | String c s' =>
      match digit_of c with
      | Some d => int_digits (10 * acc + d) false s'
      | None =>
          if Ascii.eqb c "_"
          then if us then None else int_digits acc true s'
          else if us then None else Some (acc, s)
      end
  end.

(** [int(s)] *)
Definition py_int (s : string) : result Z :=
  let '(neg, s1) := sign (skip_spaces s) in
  match s1 with
  | String c _ =>
      if is_digit c then
        match int_digits 0 false s1 with
        | Some (n, rest) =>
            if all_spaces rest then Ok (if neg then - n else n)
            else Raise ValueError
        | None => Raise ValueError
        end
      else Raise ValueError
  | EmptyString => Raise ValueError
  end.

(** The nearest binary64 to [m * 10 ^ e10], ties to even, for [m >= 0];
    [neg] is the sign.  For a negative exponent the quotient is computed
    with 64 bits more than the divisor has, and a last bit that records
    whether the division left a remainder. *)
Definition dec_to_float (neg : bool) (m e10 : Z) : float :=
  let sgn (z : Z) := if neg then - z else z in
  if m =? 0 then (if neg then neg_zero else zero)
  else if 0 <=? e10 then
    SF2Prim (binary_normalize prec emax (sgn (m * 10 ^ e10)) 0 neg)
  else
    let d := 10 ^ (- e10) in
    let s := Z.log2 d + 64 in
    let q := (m * 2 ^ s) / d in
    let r := (m * 2 ^ s) mod d in
    let mant := 2 * q + (if r =? 0 then 0 else 1) in
    SF2Prim (binary_normalize prec emax (sgn mant) (- (s + 1)) neg).

(** A run of digits: the value accumulated on [acc], how many digits were
    read, and the rest. *)
Fixpoint digit_run (acc : Z) (n : Z) (s : string) : Z * Z * string :=
  match s with
  | String c s' =>
      match digit_of c with
      | Some d => digit_run (10 * acc + d) (n + 1) s'
      | None => (acc, n, s)
      end
  | EmptyString => (acc, n, s)
  end.

(** An exponent part; a malformed one is not consumed. *)
Definition exponent (s : string) : Z * string :=
  match s with
  | String c s1 =>
      if Ascii.eqb c "e" || Ascii.eqb c "E" then
        let '(eneg, s2) := sign s1 in
        let '(e, n, s3) := digit_run 0 0 s2 in
        if n =? 0 then (0, s) else (if eneg then - e else e, s3)
      else (0, s)
  | EmptyString => (0, s)
  end.

(** A decimal literal: digits, an optional point and more digits, an
    optional exponent.  [None] when there is no digit at all. *)
Definition decimal (s : string) : option (Z * Z * string) :=
  let '(m1, n1, s1) := digit_run 0 0 s in
  let '(m2, n2, s2) :=
    match s1 with
    | String "." s1' => digit_run m1 0 s1'
    | _ => (m1, 0, s1)
    end in
  if n1 + n2 =? 0 then None
  else let '(e, s3) := exponent s2 in Some (m2, e - n2, s3).

Definition lower (c : ascii) : ascii :=
  let n := code c in
  if (65 <=? n) && (n <=? 90) then ascii_of_N (Z.to_N (n + 32)) else c.

(** [s] starts with [p], whatever the case of its letters: the rest. *)
Fixpoint match_nocase (p s : string) : option string :=
  match p, s with
  | EmptyString, _ => Some s
  | String a p', String c s' =>
      if Ascii.eqb a (lower c) then match_nocase p' s' else None
  | _, EmptyString => None
  end.

(** [inf], [infinity] and [nan] *)
Definition inf_or_nan (neg : bool) (s : string) : option (float * string) :=
  match match_nocase "inf" s with
  | Some s1 =>
      let rest := match match_nocase "inity" s1 with
                  | Some s2 => s2
                  | None => s1
                  end in
      Some (if neg then neg_infinity else infinity, rest)
  | None =>
      match match_nocase "nan" s with
      | Some s1 => Some (nan, s1)
      | None => None
      end
  end.

(** The underscores of a [float] literal are dropped first; each must
    stand between two digits.  [prev] is the previous character. *)
Fixpoint drop_underscores (prev : option ascii) (s : string)
  : option string :=
  let prev_digit := match prev with Some p => is_digit p | None => false end in
  let prev_us := match prev with Some p => Ascii.eqb p "_" | None => false end in
  match s with
  | EmptyString => if prev_us then None else Some EmptyString
  | String c s' =>
      if Ascii.eqb c "_" then
        if prev_digit then drop_underscores (Some c) s' else None
      else if prev_us && negb (is_digit c) then None
      else option_map (String c) (drop_underscores (Some c) s')
  end.

(** [float(s)] *)
Definition py_float (s : string) : result float :=
  match drop_underscores None s with
  | None => Raise ValueError
  | Some s0 =>
      let '(neg, s1) := sign (skip_spaces s0) in
      let parsed :=
        match decimal s1 with
        | Some (m, e, rest) => Some (dec_to_float neg m e, rest)
        | None => inf_or_nan neg s1
        end in
      match parsed with
      | Some (x, rest) => if all_spaces rest then Ok x else Raise ValueError
      | None => Raise ValueError
      end
  end.

End Builtins.

(** ** Sequence operations shared by [bytes] and [list] *)

Module Seq.

(** [l[i]]: a negative index counts from the end; IndexError outside. *)
Definition getitem {A} (l : list A) (i : Z) : result A :=
  let n := Z.of_nat (length l) in
  let j := if i <? 0 then i + n else i in
  if (0 <=? j) && (j <? n)
  then match l !! Z.to_nat j with
       | Some a => Ok a
       | None => Raise IndexError
       end
  else Raise IndexError.

(** A slice bound: negative bounds count from the end, and every bound
    is clipped to the sequence. *)
Definition bound (n i : Z) : Z :=
  if i <? 0 then Z.max (i + n) 0 else Z.min i n.

(** [l[start:stop]]; [None] is an omitted bound. *)
Definition slice {A} (l : list A) (start stop : option Z) : list A :=
  let n := Z.of_nat (length l) in
  let a := match start with Some i => bound n i | None => 0 end in
  let b := match stop with Some j => bound n j | None => n end in
  take (Z.to_nat (b - a)) (drop (Z.to_nat a) l).

End Seq.

(** ** [bytes] methods *)

Module Bytes.

Fixpoint startswith (sub data : list byte) : bool :=
  match sub, data with
  | [], _ => true
  | b :: sub', c :: data' => Byte.eqb b c && startswith sub' data'
  | _ :: _, [] => false
  end.

(** [data.find(sub)]: the lowest index where [sub] occurs, or -1. *)
Fixpoint find (sub data : list byte) : Z :=
  if startswith sub data then 0
  else match data with
       | [] => -1
       | _ :: data' =>
           let i := find sub data' in if i <? 0 then -1 else i + 1
       end.

(** [data.decode('latin1')] *)
Definition decode (data : list byte) : string := string_of_list_byte data.

(** [s.encode('latin1')] *)
Definition encode (s : string) : list byte := list_byte_of_string s.

Definition of_string (s : string) : list byte := list_byte_of_string s.

Definition len (data : list byte) : Z := Z.of_nat (length data).

End Bytes.

(** ** The NumPy operations of [parse_isf_data] *)

Module Numpy.

Definition int64_min : Z := - 2 ^ 63.
Definition int64_max : Z := 2 ^ 63 - 1.

(** Arithmetic on int64 wraps around. *)
Definition wrap64 (z : Z) : Z := (z + 2 ^ 63) mod 2 ^ 64 - 2 ^ 63.

(** Conversion of an integer to float64 rounds to nearest, ties to even. *)
Definition to_float64 (z : Z) : float :=
  SF2Prim (binary_normalize prec emax z 0 false).

(** The element size of the dtype string ['<i' + str(byte_size)]: NumPy
    knows integers of 1, 2, 4 and 8 bytes; any other string, ['<iNone']
    among them, is not a data type. *)
Definition itemsize (byte_size : pyval) : result nat :=
  match byte_size with
  | PyInt 1 => Ok 1%nat
  | PyInt 2 => Ok 2%nat
  | PyInt 4 => Ok 4%nat
  | PyInt 8 => Ok 8%nat
  | _ => Raise TypeError
  end.

Definition le_value (item : list byte) : Z :=
  foldr (fun b acc => Z.of_N (Byte.to_N b) + 256 * acc) 0 item.

(** One element: [big] for the byte order ['>'], [signed] for the kind
    ['i'] (two's complement). *)
Definition item_value (big signed : bool) (item : list byte) : Z :=
  let v := le_value (if big then rev item else item) in
  let bits := 8 * Z.of_nat (length item) in
  if signed && (2 ^ (bits - 1) <=? v) then v - 2 ^ bits else v.

(** [np.fromstring(data, dtype)] on binary data: as many elements as the
    data holds; ValueError unless its size is a multiple of the element
    size. *)
Definition fromstring (big signed : bool) (size : nat) (data : list byte)
  : result (list Z) :=
  if (length data mod size =? 0)%nat then
    Ok (map (fun i => item_value big signed (take size (drop (i * size) data)))
            (seq 0 (length data / size)))
  else Raise ValueError.

(** An int64 array holds fewer than [2 ^ 60] elements: its size in bytes
    is a signed 64-bit integer. *)
Definition max_rows : Z := 2 ^ 60.

(** [np.arange(n)]: the int64 array [0, ..., n-1], empty for [n <= 0].
    The array is given for every [n], as if it could be held whatever its
    length; this is NumPy for [int64_min <= n < max_rows].  From
    [max_rows] on NumPy has no such array: it raises, and for [n] within
    some [2 ^ 10] of [2 ^ 63] the length it computes in double precision
    overflows and the array it returns is empty.  The properties that
    count rows keep [NR_PT] within these bounds, or take a payload of
    [NR_PT] samples. *)
Definition arange (n : pyval) : result (list Z) :=
  match n with
  | PyInt n => Ok (map Z.of_nat (seq 0 (Z.to_nat n)))
  | _ => Raise TypeError
  end.

(** [a - k] for an int64 array and a Python int.  With [None] for [k]
    the operation is that of object arrays, element by element: on an
    empty array nothing is computed and the result is empty, on any other
    the first [int - None] raises TypeError.  A Python int is cast to
    int64 whatever the array holds. *)
Definition int_sub (a : list Z) (k : pyval) : result (list Z) :=
  match k with
  | PyInt k =>
      if (int64_min <=? k) && (k <=? int64_max)
      then Ok (map (fun i => wrap64 (i - k)) a)
      else Raise OverflowError
  | PyNone =>
      match a with
      | [] => Ok []
      | _ :: _ => Raise TypeError
      end
  | _ => Raise TypeError
  end.

(** [a op x] for an array of float64 and a Python float.  With [None]
    for [x] the operation is again that of object arrays: empty on an
    empty array, TypeError on any other.  An array that [None] has left
    empty stays empty under the operations that follow, so that its
    elements need no type. *)
Definition float_op (op : float -> float -> float) (a : list float)
  (x : pyval) : result (list float) :=
  match x with
  | PyFloat x => Ok (map (fun v => op v x) a)
  | PyNone =>
      match a with
      | [] => Ok []
      | _ :: _ => Raise TypeError
      end
  | _ => Raise TypeError
  end.

(** [a op x] for an integer array and a Python float: the result is
    float64. *)
Definition int_float_op (op : float -> float -> float) (a : list Z)
  (x : pyval) : result (list float) :=
  float_op op (map to_float64 a) x.

(** [np.array((xdata, ydata)).T]: the rows [(x, y)]. *)
Definition columns (xdata ydata : list float) : result (list (float * float)) :=
  if (length xdata =? length ydata)%nat
  then Ok (zip xdata ydata)
  else Raise ValueError.

End Numpy.

(** ** The header schema *)

(** The parsers of [HEADER_DISPATCHER]: [int], [str], [float], and the
    lambda that strips double quotes. *)
Inductive parser : Set := ParseInt | ParseStr | ParseFloat | ParseUnquote.

Definition HEADER_DISPATCHER : list (string * parser) :=
  [ ("BYT_NR", ParseInt);
    ("ENCDG", ParseStr);
    ("BN_FMT", ParseStr);
    ("BYT_OR", ParseStr);
    ("WFID", ParseStr);
    ("NR_PT", ParseInt);
    ("PT_FMT", ParseStr);
    ("XUNIT", ParseUnquote);
    ("XINCR", ParseFloat);
    ("XZERO", ParseFloat);
    ("PT_OFF", ParseInt);
    ("YUNIT", ParseUnquote);
    ("YMULT", ParseFloat);
    ("YOFF", ParseFloat);
    ("YZERO", ParseFloat);
    ("VSCALE", ParseFloat);
    ("HSCALE", ParseFloat);
    ("VPOS", ParseFloat);
    ("VOFFSET", ParseFloat);
    ("HDELAY", ParseFloat);
    (":CURVE", ParseStr) ].

(** A value of the correcting tables: a canonical name, or one of the two
    type objects that [SCOPE2_HD] stores under ['COMP'] and ['FILTERF']. *)
Inductive target : Set :=
| Name (key : string)
| TypeObject (p : parser).

Definition SCOPE1_HD : list (string * target) :=
  [ ("BYT_NR", Name "BYT_NR");
    ("ENCDG", Name "ENCDG");
    ("BN_FMT", Name "BN_FMT");
    ("BYT_OR", Name "BYT_OR");
    ("WFID", Name "WFID");
    ("NR_PT", Name "NR_PT");
    ("PT_FMT", Name "PT_FMT");
    ("XUNIT", Name "XUNIT");
    ("XINCR", Name "XINCR");
    ("XZERO", Name "XZERO");
    ("PT_OFF", Name "PT_OFF");
    ("YUNIT", Name "YUNIT");
    ("YMULT", Name "YMULT");
    ("YOFF", Name "YOFF");
    ("YZERO", Name "YZERO");
    ("VSCALE", Name "VSCALE");
    ("HSCALE", Name "HSCALE");
    ("VPOS", Name "VPOS");
    ("VOFFSET", Name "VOFFSET");
    ("HDELAY", Name "HDELAY");
    (":CURVE", Name ":CURVE") ].

Definition SCOPE2_HD : list (string * target) :=
  [ ("BYT_N", Name "BYT_NR");
    ("ENC", Name "ENCDG");
    ("BN_F", Name "BN_FMT");
    ("BYT_O", Name "BYT_OR");
    ("WFI", Name "WFID");
    ("NR_P", Name "NR_PT");
    ("PT_F", Name "PT_FMT");
    ("XUN", Name "XUNIT");
    ("XIN", Name "XINCR");
    ("XZE", Name "XZERO");
    ("PT_O", Name "PT_OFF");
    ("YUN", Name "YUNIT");
    ("YMU", Name "YMULT");
    ("YOF", Name "YOFF");
    ("YZE", Name "YZERO");
    ("VSCALE", Name "VSCALE");
    ("HSCALE", Name "HSCALE");
    ("VPOS", Name "VPOS");
    ("VOFFSET", Name "VOFFSET");
    ("HDELAY", Name "HDELAY");
    (":CURV", Name ":CURVE");
    ("COMP", TypeObject ParseStr);
    ("FILTERF", TypeObject ParseInt) ].

(** [d.update(items)]: later items overwrite earlier ones. *)
Definition dict_update {V} (d : gmap string V) (items : list (string * V))
  : gmap string V :=
  foldl (fun m kv => <[kv.1 := kv.2]> m) d items.

(** [CORRECTING_HD = SCOPE1_HD; CORRECTING_HD.update(SCOPE2_HD)] *)
Definition CORRECTING_HD : gmap string target :=
  dict_update (dict_update ∅ SCOPE1_HD) SCOPE2_HD.

(** [HEADER_DISPATCHER[key]], as a lookup in the dictionary literal. *)
Definition dispatcher (key : string) : option parser :=
  snd <$> List.find (fun kv => String.eqb kv.1 key) HEADER_DISPATCHER.

(** The character that the lambda of XUNIT and YUNIT strips. *)
Definition double_quote : ascii := ascii_of_N 34.

(** [HEADER_DISPATCHER[key](val)] *)
Definition parse_value (p : parser) (val : string) : result pyval :=
  match p with
  | ParseInt => let? n := Builtins.py_int val in Ok (PyInt n)
  | ParseStr => Ok (PyStr val)
  | ParseFloat => let? x := Builtins.py_float val in Ok (PyFloat x)
  | ParseUnquote => Ok (PyStr (Str.strip [double_quote] val))
  end.

(** ** [parse_isf_header] *)

(** [dict.fromkeys(HEADER_DISPATCHER.keys())]: every key bound to [None]. *)
Definition empty_header : gmap string pyval :=
  dict_update ∅ (map (fun kv => (kv.1, PyNone)) HEADER_DISPATCHER).

(** The prefix that is removed from the keys. *)
Definition prefix_of (header_text : string) : string :=
  if Str.contains ":WFMPRE:" header_text then ":WFMPRE:" else ":WFMP:".

(** The body of the loop over the key-value pairs.  [kv_pair.find(' ')] is
    used as the condition, so the body is skipped exactly when the index is
    0; a pair without a space gives -1, the body runs, and unpacking the
    single piece of [split(' ', 1)] into [(key, val)] raises ValueError. *)
Definition header_item (remove : string) (header : gmap string pyval)
  (kv_pair : string) : result (gmap string pyval) :=
  if negb (Str.find " " kv_pair =? 0) then
    match Str.split1 " " kv_pair with
    | [key; val] =>
        let key := Str.remove_all remove key in
        match CORRECTING_HD !! key with
        | Some (Name key) =>
            match dispatcher key with
            | Some p =>
                let? v := parse_value p val in
                Ok (<[key := v]> header)
            | None => Ok header
            end
        | _ => Ok header
        end
    | _ => Raise ValueError
    end
  else Ok header.

(** The pairs the loop runs over: [header_text.strip(';').split(';')]. *)
Definition kv_pairs (header_text : string) : list string :=
  Str.split ";" (Str.strip [";"%char] header_text).

Definition parse_isf_header (header_text : string)
  : result (gmap string pyval) :=
  let remove := prefix_of header_text in
  for_each (header_item remove) empty_header (kv_pairs header_text).

(** ** [split_isf_header] *)

(** [header[key]] *)
Definition getitem (header : gmap string pyval) (key : string) : result pyval :=
  match header !! key with
  | Some v => Ok v
  | None => Raise KeyError
  end.

(** [v == s] for a string [s] *)
Definition eq_str (v : pyval) (s : string) : bool :=
  match v with
  | PyStr t => String.eqb t s
  | _ => false
  end.

Definition curve : list byte := Bytes.of_string ":CURV".

(** Lines 110 to 119: the index just after the separator [':CURVE #'] or
    [':CURV #'].  The byte after the five of [curve] is read before the
    result of [find] is tested; with [find = -1] that is the byte at
    index 4. *)
Definition separator_end (data : list byte) : result Z :=
  let find := Bytes.find curve data in
  let? b := Seq.getitem data (find + Bytes.len curve) in
  let? length :=
    if Byte.eqb b "E"%byte then Ok (Bytes.len (Bytes.of_string ":CURVE #"))
    else if negb (find =? -1) then Ok (Bytes.len (Bytes.of_string ":CURV #"))
    else Raise InvalidFileError in
  Ok (find + length).

(** Lines 122 to 124: [(split, data_len)] from the index [find] of the
    digit that counts the digits of the length. *)
Definition splitting_point (data : list byte) (find : Z) : result (Z * Z) :=
  let? d := Builtins.py_int
              (Bytes.decode (Seq.slice data (Some find) (Some (find + 1)))) in
  let pad_char := d + 1 in
  let? data_len := Builtins.py_int
              (Bytes.decode (Seq.slice data (Some (find + 1)) (Some (find + pad_char)))) in
  let split := find + pad_char in
  Ok (split, data_len).

(** The recursion of the ENV mode is bounded by the interpreter's limit on
    the depth of calls: [depth] is the number of calls still allowed, and
    RecursionError is raised when none is left. *)
Fixpoint split_isf_header (depth : nat) (data : list byte)
  : result (gmap string pyval * list byte) :=
  match depth with
  | O => Raise RecursionError
  | S depth' =>
      let? find := separator_end data in
      let? '(split, data_len) := splitting_point data find in
      let header_text := Seq.slice data None (Some split) in
      let bin_data := Seq.slice data (Some split) (Some (split + data_len)) in
      let? header := parse_isf_header (Bytes.decode header_text) in
      let? pt_fmt := getitem header "PT_FMT" in
      if eq_str pt_fmt "ENV" then
        match split_isf_header depth'
                (Seq.slice data (Some (split + data_len)) None) with
        | Raise IndexError | Raise InvalidFileError => Raise InvalidFileError
        | r => r
        end
      else Ok (header, bin_data)
  end.

(** ** [parse_isf_data] *)

(** Lines 194 to 211: the samples of the binary block, calibrated with the
    values of the header (the decoder of the specification).  The header
    holds under each key a value of the type of its parser, or [None]
    (lemma [split_isf_header_typed]), so an operand of another type does
    not reach NumPy; the model gives TypeError for it. *)
Definition decode_samples (header : gmap string pyval) (data : list byte)
  : result (list (float * float)) :=
  let? num_rows := getitem header "NR_PT" in
  let? yoff := getitem header "YOFF" in
  let? ymult := getitem header "YMULT" in
  let? yzero := getitem header "YZERO" in
  let? pt_off := getitem header "PT_OFF" in
  let? xincr := getitem header "XINCR" in
  let? xzero := getitem header "XZERO" in
  let? byt_or := getitem header "BYT_OR" in
  let? bn_fmt := getitem header "BN_FMT" in
  let? byte_size := getitem header "BYT_NR" in
  let byte_order := eq_str byt_or "MSB" in
  let byte_format := eq_str bn_fmt "RI" in
  let? size := Numpy.itemsize byte_size in
  let? data := Numpy.fromstring byte_order byte_format size data in
  let? rows := Numpy.arange num_rows in
  let? shifted := Numpy.int_sub rows pt_off in
  let? scaled := Numpy.int_float_op PrimFloat.mul shifted xincr in
  let? xdata := Numpy.float_op PrimFloat.add scaled xzero in
  let? y1 := Numpy.int_float_op PrimFloat.sub data yoff in
  let? y2 := Numpy.float_op PrimFloat.mul y1 ymult in
  let? ydata := Numpy.float_op PrimFloat.add y2 yzero in
  Numpy.columns xdata ydata.

(** The argument of [parse_isf_data] is a [str] or a [bytes]. *)
Inductive pydata : Type :=
| DataStr (s : string)
| DataBytes (b : list byte).

(** Lines 189 and 190: a [str] is encoded first. *)
Definition as_bytes (data : pydata) : list byte :=
  match data with
  | DataStr s => Bytes.encode s
  | DataBytes b => b
  end.

Definition parse_isf_data (depth : nat) (data : pydata) (with_header : bool)
  : result (list (float * float) * option (gmap string pyval)) :=
  let data := as_bytes data in
  let? '(header, data) := split_isf_header depth data in
  let? array := decode_samples header data in
  if with_header then Ok (array, Some header) else Ok (array, None).

(** ** Notions used to state the properties *)

(** The schema field that a raw key names, with its parser: the prefix is
    removed, the key corrected, and the result looked up in the schema. *)
Definition canonical (remove key : string) : option (string * parser) :=
  match CORRECTING_HD !! Str.remove_all remove key with
  | Some (Name key) =>
      match dispatcher key with
      | Some p => Some (key, p)
      | None => None
      end
  | _ => None
  end.

(** What one key-value pair assigns: the canonical key, its parser and the
    text of the value, when the pair has a key before its first space and
    that key is a spelling of a schema field. *)
Definition item_field (remove kv_pair : string)
  : option (string * parser * string) :=
  if Str.find " " kv_pair =? 0 then None
  else match Str.split1 " " kv_pair with
       | [key; val] =>
           match canonical remove key with
           | Some (key, p) => Some (key, p, val)
           | None => None
           end
       | _ => None
       end.

(** The Python type of the values that a parser returns. *)
Definition has_type (p : parser) (v : pyval) : Prop :=
  match p, v with
  | ParseInt, PyInt _ => True
  | ParseFloat, PyFloat _ => True
  | ParseStr, PyStr _ => True
  | ParseUnquote, PyStr _ => True
  | _, _ => False
  end.

(** Every value of the header is [None] or of the type of its parser. *)
Definition typed (header : gmap string pyval) : Prop :=
  forall key p v,
    dispatcher key = Some p -> header !! key = Some v ->
    v = PyNone \/ has_type p v.

(** The pair assigns [key]. *)
Definition assigns (remove kv_pair key : string) : Prop :=
  exists p val, item_field remove kv_pair = Some (key, p, val).

(** The value of a pair that assigns a schema field is rejected by the
    field's parser. *)
Definition rejected (remove kv_pair : string) : Prop :=
  exists key p val,
    item_field remove kv_pair = Some (key, p, val) /\
    parse_value p val = Raise ValueError.

Definition starts_with_space (kv_pair : string) : bool :=
  match kv_pair with
  | String c _ => Ascii.eqb c " "
  | EmptyString => false
  end.

(** The canonical names of the schema. *)
Definition schema : list string := map fst HEADER_DISPATCHER.

(** The spelling of a canonical field in a table of one dialect: the first
    key of the table bound to it. *)
Definition spelling (table : list (string * target)) (field : string) : string :=
  match List.find (fun kv => match kv.2 with
                             | Name k => String.eqb k field
                             | TypeObject _ => false
                             end) table with
  | Some kv => kv.1
  | None => field
  end.

(** A field and its value written in one dialect: [key value]. *)
Definition pair_text (table : list (string * target)) (fv : string * string)
  : string :=
  spelling table fv.1 +:+ " " +:+ fv.2.

(** A header text written in one dialect: the namespace prefix, then the
    fields as [key value], separated by semicolons. *)
Definition header_text_of (table : list (string * target)) (prefix : string)
  (fields : list (string * string)) : string :=
  prefix +:+ String.concat ";" (map (pair_text table) fields).

(** The length of the payload as the specification words it: the integer
    written in the [pad_char] bytes after the digit. *)
Definition claimed_data_len (data : list byte) (find : Z) : result Z :=
  let? d := Builtins.py_int
              (Bytes.decode (Seq.slice data (Some find) (Some (find + 1)))) in
  let pad_char := d + 1 in
  Builtins.py_int
    (Bytes.decode (Seq.slice data (Some (find + 1)) (Some (find + 1 + pad_char)))).

(** The values that [parse_isf_data] reads in a header, when each is of
    the type its parser gives it; [size] is the element size that NumPy
    derives from [BYT_NR]. *)
Record calibration : Type := Calibration {
  num_rows : Z;
  pt_off : Z;
  xincr : float;
  xzero : float;
  yoff : float;
  ymult : float;
  yzero : float;
  byt_or : pyval;
  bn_fmt : pyval;
  byte_size : Z;
  size : nat
}.

Definition calibrated_by (header : gmap string pyval) (c : calibration) : Prop :=
  header !! "NR_PT" = Some (PyInt (num_rows c)) /\
  header !! "PT_OFF" = Some (PyInt (pt_off c)) /\
  header !! "XINCR" = Some (PyFloat (xincr c)) /\
  header !! "XZERO" = Some (PyFloat (xzero c)) /\
  header !! "YOFF" = Some (PyFloat (yoff c)) /\
  header !! "YMULT" = Some (PyFloat (ymult c)) /\
  header !! "YZERO" = Some (PyFloat (yzero c)) /\
  header !! "BYT_OR" = Some (byt_or c) /\
  header !! "BN_FMT" = Some (bn_fmt c) /\
  header !! "BYT_NR" = Some (PyInt (byte_size c)) /\
  Numpy.itemsize (PyInt (byte_size c)) = Ok (size c) /\
  Numpy.int64_min <= pt_off c <= Numpy.int64_max.

(** The raw samples that the payload decodes to under a calibration. *)
Definition raw_samples (c : calibration) (bin_data : list byte)
  : result (list Z) :=
  Numpy.fromstring (eq_str (byt_or c) "MSB") (eq_str (bn_fmt c) "RI")
    (size c) bin_data.

(** The calibration of the specification, in binary64 arithmetic. *)
Definition x_of (pt_off : Z) (xincr xzero : float) (i : Z) : float :=
  (Numpy.to_float64 (i - pt_off) * xincr + xzero)%float.

Definition y_of (yoff ymult yzero : float) (raw : Z) : float :=
  ((Numpy.to_float64 raw - yoff) * ymult + yzero)%float.

(** What a call returned, for statements about a part of the result. *)
Definition field_of (r : result (gmap string pyval)) (key : string)
  : option pyval :=
  match r with
  | Ok header => header !! key
  | Raise _ => None
  end.

Definition header_in {B} (r : result (gmap string pyval * B))
  : result (gmap string pyval) :=
  match r with
  | Ok (header, _) => Ok header
  | Raise e => Raise e
  end.

Definition data_in {B} (r : result (gmap string pyval * B)) : result B :=
  match r with
  | Ok (_, data) => Ok data
  | Raise e => Raise e
  end.

(** The buffer of the scenario of the specification. *)
Definition scenario : list byte :=
  app (Bytes.of_string
         ":WFMPRE:BYT_NR 1;BN_FMT RI;BYT_OR LSB;NR_PT 3;PT_OFF 0;XINCR 1.0;XZERO 0.0;YOFF 0.0;YMULT 2.0;YZERO 0.0;PT_FMT Y;:CURVE #13")
      [x01; xff; x02].

(** ** The inverse of the decoder

    The module only reads samples.  To state that the reading is right,
    [tobytes] writes integers the way [np.fromstring] reads them: each in
    [size] bytes, two's complement, in the byte order asked for. *)

Definition byte_of_Z (z : Z) : byte :=
  match Byte.of_N (Z.to_N (z mod 256)) with
  | Some b => b
  | None => x00
  end.

(** The [n] low bytes of [u], the lowest first. *)
Fixpoint le_bytes (n : nat) (u : Z) : list byte :=
  match n with
  | O => []
  | S n' => byte_of_Z u :: le_bytes n' (u / 256)
  end.

Definition item_bytes (big : bool) (size : nat) (v : Z) : list byte :=
  let le := le_bytes size (v mod 2 ^ (8 * Z.of_nat size)) in
  if big then rev le else le.

Definition tobytes (big : bool) (size : nat) (vs : list Z) : list byte :=
  List.concat (map (item_bytes big size) vs).

(** The integers of a dtype of [size] bytes. *)
Definition in_range (signed : bool) (size : nat) (v : Z) : Prop :=
  if signed
  then - 2 ^ (8 * Z.of_nat size - 1) <= v < 2 ^ (8 * Z.of_nat size - 1)
  else 0 <= v < 2 ^ (8 * Z.of_nat size).

(** The header fields that [parse_isf_data] computes with. *)
Definition numeric_fields : list string :=
  ["NR_PT"; "PT_OFF"; "XINCR"; "XZERO"; "YOFF"; "YMULT"; "YZERO"; "BYT_NR"].

(** * Properties *)

(** ** Results and loops *)

Lemma rbind_Ok {A B} (r : result A) (k : A -> result B) (b : B) :
  rbind r k = Ok b -> exists a, r = Ok a /\ k a = Ok b.
Proof. destruct r as [a|e]; simpl; [eauto | discriminate]. Qed.

Lemma for_each_app {S A} (body : S -> A -> result S) (l1 l2 : list A) (s : S) :
  for_each body s (l1 ++ l2) =
  rbind (for_each body s l1) (fun s' => for_each body s' l2).
Proof.
  revert s. induction l1 as [|a l1 IH]; intros s; simpl; [reflexivity|].
  destruct (body s a); simpl; auto.
Qed.

(** Two loops whose bodies agree pair by pair agree. *)
Lemma for_each_ext {S A B} (f : S -> A -> result S) (g : S -> B -> result S)
  (la : list A) (lb : list B) :
  Forall2 (fun a b => forall s, f s a = g s b) la lb ->
  forall s, for_each f s la = for_each g s lb.
Proof.
  induction 1 as [|a b la lb Hab _ IH]; intros s; simpl; [reflexivity|].
  rewrite Hab. destruct (g s b); simpl; auto.
Qed.

(** ** [find] and [split(' ', 1)] *)

Lemma find_ge c s : -1 <= Str.find c s.
Proof.
  induction s as [|d s IH]; simpl; [lia|].
  destruct (Ascii.eqb d c); [lia|].
  destruct (Z.ltb_spec (Str.find c s) 0); lia.
Qed.

(** Without the character, [split1] returns the string alone; with it, the
    two pieces around its first occurrence. *)
Lemma split1_find c s :
  (Str.find c s = -1 /\ Str.split1 c s = [s]) \/
  (0 <= Str.find c s /\
   exists key val, Str.split1 c s = [key; val] /\ s = key +:+ String c val /\
                   Str.find c key = -1 /\
                   Str.find c s = Z.of_nat (String.length key)).
Proof.
  induction s as [|d s IH]; simpl.
  - left. split; reflexivity.
  - destruct (Ascii.eqb_spec d c) as [->|Hdc].
    + right. split; [lia|]. exists EmptyString, s. repeat split; reflexivity.
    + destruct IH as [[Hf Hs]|[Hf (key & val & Hs & Heq & Hk & Hlen)]].
      * left. rewrite Hf, Hs. split; reflexivity.
      * right. rewrite Hs.
        destruct (Z.ltb_spec (Str.find c s) 0); [lia|]. split; [lia|].
        exists (String d key), val. simpl.
        destruct (Ascii.eqb_spec d c); [contradiction|].
        rewrite Hk. simpl. repeat split; [|lia].
        change (String d s = String d (key +:+ String c val)). congruence.
Qed.

(** ** The body of the loop of [parse_isf_header] *)

Lemma header_item_eq remove header kv :
  header_item remove header kv =
  if Str.find " " kv =? 0 then Ok header
  else if Str.find " " kv =? -1 then Raise ValueError
  else match item_field remove kv with
       | Some (key, p, val) =>
           let? v := parse_value p val in Ok (<[key := v]> header)
       | None => Ok header
       end.
Proof.
  unfold header_item, item_field, canonical.
  destruct (Z.eqb_spec (Str.find " " kv) 0) as [H0|H0]; cbn [negb]; [reflexivity|].
  destruct (split1_find " " kv) as [[Hf Hs]|[Hf (key & val & Hs & _)]].
  - rewrite Hf, Hs. reflexivity.
  - rewrite Hs. destruct (Z.eqb_spec (Str.find " " kv) (-1)); [lia|].
    destruct (CORRECTING_HD !! Str.remove_all remove key) as [[k|]|]; try reflexivity.
    destruct (dispatcher k); reflexivity.
Qed.

(** ** The parsers raise nothing but ValueError *)

Lemma py_int_raise s e : Builtins.py_int s = Raise e -> e = ValueError.
Proof.
  unfold Builtins.py_int. intros H. repeat case_match; congruence.
Qed.

Lemma py_float_raise s e : Builtins.py_float s = Raise e -> e = ValueError.
Proof.
  unfold Builtins.py_float. intros H. repeat case_match; congruence.
Qed.

Lemma parse_value_raise p val e : parse_value p val = Raise e -> e = ValueError.
Proof.
  destruct p; simpl; try discriminate.
  - destruct (Builtins.py_int val) eqn:E; simpl; [discriminate|].
    intros [= <-]. eauto using py_int_raise.
  - destruct (Builtins.py_float val) eqn:E; simpl; [discriminate|].
    intros [= <-]. eauto using py_float_raise.
Qed.

Lemma dispatcher_schema key p : dispatcher key = Some p -> In key schema.
Proof.
  unfold dispatcher, schema. intros H.
  destruct (List.find _ HEADER_DISPATCHER) as [[k q]|] eqn:E; [|discriminate].
  apply find_some in E as [Hin Heq]. simpl in Heq.
  apply String.eqb_eq in Heq. subst k.
  change key with (fst (key, q)). apply in_map. exact Hin.
Qed.

Lemma item_field_schema remove kv key p val :
  item_field remove kv = Some (key, p, val) ->
  In key schema /\ Str.find " " kv <> 0.
Proof.
  unfold item_field. intros H.
  destruct (Z.eqb_spec (Str.find " " kv) 0); [discriminate|].
  split; [|assumption].
  destruct (Str.split1 " " kv) as [|k1 [|v1 [|]]]; try discriminate H.
  destruct (canonical remove k1) as [[k q]|] eqn:C; [|discriminate H].
  injection H as <- <- <-. unfold canonical in C.
  destruct (CORRECTING_HD !! _) as [[k'|]|]; try discriminate C.
  destruct (dispatcher k') eqn:D; [|discriminate C].
  injection C as <- <-. eauto using dispatcher_schema.
Qed.

(** The three outcomes of one turn of the loop. *)
Lemma header_item_Ok remove header kv header' :
  header_item remove header kv = Ok header' ->
  header' = header \/
  exists key p val v,
    item_field remove kv = Some (key, p, val) /\
    parse_value p val = Ok v /\ header' = <[key := v]> header.
Proof.
  rewrite header_item_eq.
  destruct (Str.find " " kv =? 0); [intros [= <-]; auto|].
  destruct (Str.find " " kv =? -1); [discriminate|].
  destruct (item_field remove kv) as [[[key p] val]|]; [|intros [= <-]; auto].
  destruct (parse_value p val) as [v|] eqn:E; simpl; [|discriminate].
  intros [= <-]. right. exists key, p, val, v. auto.
Qed.

Lemma header_item_Raise remove header kv e :
  header_item remove header kv = Raise e ->
  e = ValueError /\ (Str.find " " kv = -1 \/ rejected remove kv).
Proof.
  rewrite header_item_eq.
  destruct (Str.find " " kv =? 0); [discriminate|].
  destruct (Z.eqb_spec (Str.find " " kv) (-1)); [intros [= <-]; auto|].
  destruct (item_field remove kv) as [[[key p] val]|] eqn:F; [|discriminate].
  destruct (parse_value p val) as [v|e'] eqn:E; simpl; [discriminate|].
  intros [= <-]. pose proof (parse_value_raise _ _ _ E) as ->.
  split; [reflexivity|]. right. exists key, p, val. auto.
Qed.

Lemma rejected_raises remove header kv :
  rejected remove kv -> header_item remove header kv = Raise ValueError.
Proof.
  intros (key & p & val & F & E). rewrite header_item_eq.
  destruct (item_field_schema _ _ _ _ _ F) as [_ H0].
  destruct (Z.eqb_spec (Str.find " " kv) 0); [contradiction|].
  destruct (Z.eqb_spec (Str.find " " kv) (-1)); [reflexivity|].
  rewrite F, E. reflexivity.
Qed.

Lemma starts_with_space_find kv :
  starts_with_space kv = true <-> Str.find " " kv = 0.
Proof.
  destruct kv as [|c kv]; simpl; [split; [discriminate | lia]|].
  destruct (Ascii.eqb c " "); [tauto|].
  pose proof (find_ge " " kv).
  destruct (Z.ltb_spec (Str.find " " kv) 0); split; (discriminate || lia).
Qed.

(** ** Dictionaries *)

Lemma dict_update_notin {V} (items : list (string * V)) (d : gmap string V) k :
  ~ In k (map fst items) -> dict_update d items !! k = d !! k.
Proof.
  unfold dict_update. revert d.
  induction items as [|[k' v] items IH]; intros d Hk; simpl in *; [reflexivity|].
  rewrite IH by tauto. apply lookup_insert_ne. tauto.
Qed.

Lemma dict_update_const {V} (items : list (string * V)) (d : gmap string V) k v :
  (forall kv, In kv items -> kv.2 = v) ->
  In k (map fst items) -> dict_update d items !! k = Some v.
Proof.
  revert d.
  induction items as [|[k' v'] items IH]; intros d Hv Hk; simpl in *; [tauto|].
  destruct (in_dec String.string_dec k (map fst items)) as [Hin|Hout].
  - apply IH; auto.
  - change (dict_update (<[k' := v']> d) items !! k = Some v).
    rewrite dict_update_notin by assumption.
    destruct Hk as [->|]; [|contradiction].
    assert (v' = v) as -> by (apply (Hv (k, v')); auto).
    apply lookup_insert_eq.
Qed.

Lemma empty_header_schema key :
  In key schema -> empty_header !! key = Some PyNone.
Proof.
  intros H. unfold empty_header. apply dict_update_const.
  - intros kv Hkv. apply in_map_iff in Hkv as (x & <- & _). reflexivity.
  - rewrite map_map. exact H.
Qed.

Lemma empty_header_other key :
  ~ In key schema -> empty_header !! key = None.
Proof.
  intros H. unfold empty_header.
  rewrite dict_update_notin; [apply lookup_empty|].
  rewrite map_map. exact H.
Qed.

Lemma empty_header_dom key :
  is_Some (empty_header !! key) <-> In key schema.
Proof.
  split.
  - intros [v Hv]. destruct (in_dec String.string_dec key schema) as [|Hn]; [assumption|].
    rewrite empty_header_other in Hv by assumption. discriminate.
  - intros H. rewrite empty_header_schema by assumption. eauto.
Qed.

(** ** The loop of [parse_isf_header] *)

(** The loop keeps the keys of the dictionary, and leaves alone every key
    that no pair assigns. *)
Lemma for_each_header_keys remove l : forall header header',
  (forall key, In key schema -> is_Some (header !! key)) ->
  for_each (header_item remove) header l = Ok header' ->
  (forall key, is_Some (header' !! key) <-> is_Some (header !! key)) /\
  (forall key, (forall kv, In kv l -> ~ assigns remove kv key) ->
               header' !! key = header !! key).
Proof.
  induction l as [|kv l IH]; intros header header' Hdom; simpl.
  - intros [= <-]. split; [tauto | reflexivity].
  - intros H. apply rbind_Ok in H as (h1 & H1 & H2).
    assert (Hstep : (forall key, is_Some (h1 !! key) <-> is_Some (header !! key)) /\
                    (forall key, ~ assigns remove kv key -> h1 !! key = header !! key)).
    { apply header_item_Ok in H1 as [->|(k & p & val & v & F & _ & ->)].
      - split; [tauto | reflexivity].
      - destruct (item_field_schema _ _ _ _ _ F) as [Hk _]. split.
        + intros key. destruct (String.string_dec k key) as [->|Hne].
          * rewrite lookup_insert_eq. split; [auto | eauto].
          * rewrite lookup_insert_ne by assumption. tauto.
        + intros key Hn. apply lookup_insert_ne. intros ->.
          apply Hn. exists p, val. exact F. }
    destruct Hstep as [Hd1 Hk1].
    apply IH in H2 as [Hd2 Hk2]; [|intros key Hk; apply Hd1; auto].
    split.
    + intros key. rewrite Hd2. apply Hd1.
    + intros key Hn. rewrite Hk2 by (intros kv' Hin; apply Hn; right; exact Hin).
      apply Hk1. apply Hn. left. reflexivity.
Qed.

(** When the loop raises, a pair of the list is at fault. *)
Lemma for_each_header_Raise remove l : forall header e,
  for_each (header_item remove) header l = Raise e ->
  e = ValueError /\
  exists kv, In kv l /\ (Str.find " " kv = -1 \/ rejected remove kv).
Proof.
  induction l as [|kv l IH]; intros header e; simpl; [discriminate|].
  destruct (header_item remove header kv) as [h1|e1] eqn:H1; simpl.
  - intros H. apply IH in H as [-> (kv' & Hin & Hkv')].
    split; [reflexivity|]. exists kv'. auto.
  - intros [= <-]. apply header_item_Raise in H1 as [-> Hkv].
    split; [reflexivity|]. exists kv. auto.
Qed.

(** Pairs that begin with a space can be left out of the loop. *)
Lemma for_each_header_filter remove l : forall header,
  for_each (header_item remove) header l =
  for_each (header_item remove) header
    (List.filter (fun kv => negb (starts_with_space kv)) l).
Proof.
  induction l as [|kv l IH]; intros header; simpl; [reflexivity|].
  destruct (starts_with_space kv) eqn:E; simpl.
  - apply starts_with_space_find in E. rewrite header_item_eq, E. simpl. apply IH.
  - destruct (header_item remove header kv); simpl; auto.
Qed.

(** With a space in every pair, the loop ends well unless a value is
    rejected. *)
Lemma for_each_header_Ok remove l : forall header,
  (forall kv, In kv l -> Str.find " " kv <> -1) ->
  (forall kv, In kv l -> ~ rejected remove kv) ->
  exists header', for_each (header_item remove) header l = Ok header'.
Proof.
  induction l as [|kv l IH]; intros header Hsp Hrej; simpl; [eauto|].
  destruct (header_item remove header kv) as [h1|e1] eqn:H1; simpl.
  - apply IH; intros kv' Hin; [apply Hsp | apply Hrej]; right; exact Hin.
  - apply header_item_Raise in H1 as [_ [H|H]].
    + exfalso. apply (Hsp kv); [left; reflexivity | exact H].
    + exfalso. apply (Hrej kv); [left; reflexivity | exact H].
Qed.

Lemma for_each_header_rejected remove l : forall header,
  (forall kv, In kv l -> Str.find " " kv <> -1) ->
  (exists kv, In kv l /\ rejected remove kv) ->
  for_each (header_item remove) header l = Raise ValueError.
Proof.
  induction l as [|kv l IH]; intros header Hsp (kv' & Hin & Hrej); simpl; [destruct Hin|].
  destruct (header_item remove header kv) as [h1|e1] eqn:H1; simpl.
  - destruct Hin as [->|Hin].
    + rewrite (rejected_raises _ _ _ Hrej) in H1. discriminate.
    + apply IH; [intros kv2 Hin2; apply Hsp; right; exact Hin2 | eauto].
  - apply header_item_Raise in H1 as [-> _]. reflexivity.
Qed.

(** ** [parse_isf_header]: claims C4, C9 and C10 *)

(** C4, as the specification states it, fails: [parse_isf_header] raises
    ValueError on a header text whose integer field has a value that is
    not a number, and on a header text with a pair that has no space. *)
Lemma parse_isf_header_raises :
  parse_isf_header ":WFMPRE:NR_PT abc" = Raise ValueError /\
  parse_isf_header ":WFMPRE:NR_PT" = Raise ValueError.
Proof. split; vm_compute; reflexivity. Qed.

(** C4, amended: for every header text whose key-value pairs all contain a
    space, [parse_isf_header] returns a header when no value given to a
    schema field is rejected by the parser of the field, and raises
    ValueError when one is. *)
Theorem parse_isf_header_outcome (header_text : string) :
  (forall kv, In kv (kv_pairs header_text) -> Str.find " " kv <> -1) ->
  ((forall kv, In kv (kv_pairs header_text) ->
               ~ rejected (prefix_of header_text) kv) ->
   exists header, parse_isf_header header_text = Ok header) /\
  ((exists kv, In kv (kv_pairs header_text) /\
               rejected (prefix_of header_text) kv) ->
   parse_isf_header header_text = Raise ValueError).
Proof.
  intros Hsp. unfold parse_isf_header. split.
  - intros Hrej. apply for_each_header_Ok; assumption.
  - intros Hrej. apply for_each_header_rejected; assumption.
Qed.

Lemma parse_isf_header_outcome_witness :
  (exists header, parse_isf_header ":WFMP:NR_P 3;XIN 1.0" = Ok header) /\
  parse_isf_header ":WFMP:NR_P 3;XIN 1.0.0" = Raise ValueError.
Proof.
  split.
  - apply (parse_isf_header_outcome ":WFMP:NR_P 3;XIN 1.0").
    + intros kv Hin. vm_compute in Hin.
      destruct Hin as [<-|[<-|[]]]; vm_compute; discriminate.
    + intros kv Hin (key & p & val & F & E). vm_compute in Hin.
      destruct Hin as [<-|[<-|[]]]; vm_compute in F;
        injection F as <- <- <-; vm_compute in E; discriminate.
  - apply (parse_isf_header_outcome ":WFMP:NR_P 3;XIN 1.0.0").
    + intros kv Hin. vm_compute in Hin.
      destruct Hin as [<-|[<-|[]]]; vm_compute; discriminate.
    + exists "XIN 1.0.0". split.
      * vm_compute. auto.
      * exists "XINCR", ParseFloat, "1.0.0". split; vm_compute; reflexivity.
Defined.

(** C9: the header that [parse_isf_header] returns has exactly the keys of
    the schema, and every key that no pair of the text assigns is bound to
    [None]; when the call raises, a pair of the text is at fault (it has
    no space, or its value is rejected), never a field that is missing. *)
Theorem parse_isf_header_schema (header_text : string) :
  match parse_isf_header header_text with
  | Ok header =>
      (forall key, is_Some (header !! key) <-> In key schema) /\
      (forall key, In key schema ->
         (forall kv, In kv (kv_pairs header_text) ->
                     ~ assigns (prefix_of header_text) kv key) ->
         header !! key = Some PyNone)
  | Raise e =>
      e = ValueError /\
      exists kv, In kv (kv_pairs header_text) /\
                 (Str.find " " kv = -1 \/ rejected (prefix_of header_text) kv)
  end.
Proof.
  unfold parse_isf_header.
  destruct (for_each _ _ _) as [header|e] eqn:H.
  - apply for_each_header_keys in H as [Hdom Hkeep];
      [|intros key Hk; apply empty_header_dom; exact Hk].
    split.
    + intros key. rewrite Hdom. apply empty_header_dom.
    + intros key Hk Hn. rewrite Hkeep by exact Hn.
      apply empty_header_schema. exact Hk.
  - eapply for_each_header_Raise. exact H.
Qed.

(** A token that begins with a space can still choose the prefix: the
    text [":WFMP:BYT_N 1; :WFMPRE:"] has the two tokens [":WFMP:BYT_N 1"]
    and [" :WFMPRE:"]; the second is skipped by the loop, yet with it the
    prefix is [":WFMPRE:"], the key [":WFMP:BYT_N"] is not recognised and
    BYT_NR stays [None], where the first token alone gives 1. *)
Lemma space_first_token_selects_prefix :
  kv_pairs ":WFMP:BYT_N 1; :WFMPRE:" = [":WFMP:BYT_N 1"; " :WFMPRE:"] /\
  starts_with_space " :WFMPRE:" = true /\
  field_of (parse_isf_header ":WFMP:BYT_N 1; :WFMPRE:") "BYT_NR"
    = Some PyNone /\
  field_of (parse_isf_header ":WFMP:BYT_N 1") "BYT_NR" = Some (PyInt 1).
Proof.
  repeat split; vm_compute; reflexivity.
Qed.

(** C10, amended: a pair whose first character is a space is skipped by
    the loop: it is never split into a key and a value, and the body of
    the loop returns the header as it was, whatever the prefix; so the
    result of [parse_isf_header] is that of the loop over the other pairs
    alone, with the prefix still chosen from the whole text.  Such a pair
    contributes nothing to the result unless it changes the prefix: two
    header texts that choose the same prefix and have the same pairs,
    apart from those that begin with a space, give the same result. *)
Theorem space_first_pairs_skipped (header_text : string) :
  (forall remove header rest,
     header_item remove header (String " " rest) = Ok header /\
     item_field remove (String " " rest) = None) /\
  parse_isf_header header_text =
  for_each (header_item (prefix_of header_text)) empty_header
    (List.filter (fun kv => negb (starts_with_space kv))
       (kv_pairs header_text)) /\
  (forall other,
     prefix_of other = prefix_of header_text ->
     List.filter (fun kv => negb (starts_with_space kv)) (kv_pairs other) =
     List.filter (fun kv => negb (starts_with_space kv))
       (kv_pairs header_text) ->
     parse_isf_header other = parse_isf_header header_text).
Proof.
  split; [|split].
  - intros remove header rest. split; reflexivity.
  - apply for_each_header_filter.
  - intros other Hprefix Hpairs. unfold parse_isf_header.
    rewrite (for_each_header_filter (prefix_of other)).
    rewrite (for_each_header_filter (prefix_of header_text)).
    rewrite Hprefix, Hpairs. reflexivity.
Qed.

Lemma space_first_pairs_skipped_witness :
  parse_isf_header ":WFMP:BYT_N 1; x;NR_P 2" =
  parse_isf_header ":WFMP:BYT_N 1;NR_P 2".
Proof.
  destruct (space_first_pairs_skipped ":WFMP:BYT_N 1;NR_P 2") as (_ & _ & H).
  apply H; vm_compute; reflexivity.
Defined.

(** ** Slices and searches *)

Lemma slice_prefix {A} (l : list A) (k : Z) :
  0 <= k <= Z.of_nat (length l) ->
  Seq.slice l None (Some k) = take (Z.to_nat k) l.
Proof.
  intros Hk. unfold Seq.slice, Seq.bound.
  destruct (Z.ltb_spec k 0); [lia|].
  rewrite Z.min_l, Z.sub_0_r by lia. reflexivity.
Qed.

Lemma slice_middle {A} (l : list A) (a b : Z) :
  0 <= a <= b -> b <= Z.of_nat (length l) ->
  Seq.slice l (Some a) (Some b) = take (Z.to_nat (b - a)) (drop (Z.to_nat a) l).
Proof.
  intros Ha Hb. unfold Seq.slice, Seq.bound.
  destruct (Z.ltb_spec a 0); [lia|]. destruct (Z.ltb_spec b 0); [lia|].
  rewrite !Z.min_l by lia. reflexivity.
Qed.

Lemma bytes_find_ge sub data : -1 <= Bytes.find sub data.
Proof.
  induction data as [|b data IH]; simpl.
  - destruct (Bytes.startswith sub []); lia.
  - destruct (Bytes.startswith sub (b :: data)); [lia|].
    destruct (Z.ltb_spec (Bytes.find sub data) 0); lia.
Qed.

(** The digit that counts the digits of the length is never before index 7. *)
Lemma separator_end_ge data find : separator_end data = Ok find -> 7 <= find.
Proof.
  unfold separator_end. pose proof (bytes_find_ge curve data) as Hge.
  destruct (Seq.getitem data _) as [b|]; cbn [rbind]; [|discriminate].
  change (Bytes.len (Bytes.of_string ":CURVE #")) with 8.
  change (Bytes.len (Bytes.of_string ":CURV #")) with 7.
  destruct (Byte.eqb b "E"); cbn [rbind]; [intros [= <-]; lia|].
  destruct (Z.eqb_spec (Bytes.find curve data) (-1)); cbn [negb rbind];
    [discriminate | intros [= <-]; lia].
Qed.

(** ** [split_isf_header] *)

Lemma split_isf_header_S depth data :
  split_isf_header (S depth) data =
  let? find := separator_end data in
  let? '(split, data_len) := splitting_point data find in
  let header_text := Seq.slice data None (Some split) in
  let bin_data := Seq.slice data (Some split) (Some (split + data_len)) in
  let? header := parse_isf_header (Bytes.decode header_text) in
  let? pt_fmt := getitem header "PT_FMT" in
  if eq_str pt_fmt "ENV" then
    match split_isf_header depth
            (Seq.slice data (Some (split + data_len)) None) with
    | Raise IndexError | Raise InvalidFileError => Raise InvalidFileError
    | r => r
    end
  else Ok (header, bin_data).
Proof. reflexivity. Qed.

Lemma parse_isf_header_keys header_text header :
  parse_isf_header header_text = Ok header ->
  forall key, is_Some (header !! key) <-> In key schema.
Proof.
  unfold parse_isf_header. intros H key.
  apply for_each_header_keys in H as [Hdom _];
    [|intros k Hk; apply empty_header_dom; exact Hk].
  rewrite Hdom. apply empty_header_dom.
Qed.

Lemma schema_PT_FMT : In "PT_FMT" schema.
Proof. vm_compute. tauto. Qed.

(** The header that [split_isf_header] returns has the keys of the schema. *)
Lemma split_isf_header_keys depth : forall data header bin_data,
  split_isf_header depth data = Ok (header, bin_data) ->
  forall key, is_Some (header !! key) <-> In key schema.
Proof.
  induction depth as [|depth IH]; intros data header bin_data; [discriminate|].
  rewrite split_isf_header_S.
  destruct (separator_end data) as [find|]; cbn [rbind]; [|discriminate].
  destruct (splitting_point data find) as [[split data_len]|]; cbn [rbind]; [|discriminate].
  cbv zeta.
  destruct (parse_isf_header _) as [h|] eqn:Hh; cbn [rbind]; [|discriminate].
  destruct (getitem h "PT_FMT") as [pt_fmt|]; cbn [rbind]; [|discriminate].
  destruct (eq_str pt_fmt "ENV").
  - destruct (split_isf_header depth _) as [[h' b']|e] eqn:Hrec.
    + intros [= <- <-]. eapply IH. exact Hrec.
    + destruct e; discriminate.
  - intros [= <- <-]. eapply parse_isf_header_keys. exact Hh.
Qed.

(** The ENV mode: the call returns what the call on the rest of the buffer
    returns, with IndexError and InvalidFileError turned into
    InvalidFileError and every other exception passed on. *)
Lemma split_isf_header_env depth data find split data_len header :
  separator_end data = Ok find ->
  splitting_point data find = Ok (split, data_len) ->
  parse_isf_header
    (Bytes.decode (Seq.slice data None (Some split))) = Ok header ->
  header !! "PT_FMT" = Some (PyStr "ENV") ->
  split_isf_header (S depth) data =
  match split_isf_header depth
          (Seq.slice data (Some (split + data_len)) None) with
  | Raise IndexError | Raise InvalidFileError => Raise InvalidFileError
  | r => r
  end.
Proof.
  intros Hs Hp Hh Hf. rewrite split_isf_header_S, Hs. cbn [rbind].
  rewrite Hp. cbn [rbind]. cbv zeta. rewrite Hh. cbn [rbind].
  unfold getitem. rewrite Hf. reflexivity.
Qed.

(** C3: two buffers without the marker on which [split_isf_header] does
    not raise InvalidFileError.  The first is shorter than five bytes, and
    reading the byte at index 4 raises IndexError.  The second has an [E]
    at index 4; the call goes on as if [':CURVE #'] ended at index 7 and
    returns a header and a payload. *)
Theorem split_isf_header_without_marker :
  Bytes.find curve (Bytes.of_string "abc") = -1 /\
  (forall depth,
     split_isf_header (S depth) (Bytes.of_string "abc") = Raise IndexError) /\
  Bytes.find curve (Bytes.of_string "ab dEfg11Z") = -1 /\
  (forall depth,
     data_in (split_isf_header (S depth) (Bytes.of_string "ab dEfg11Z")) =
     Ok (Bytes.of_string "Z")).
Proof.
  repeat split; intros; vm_compute; reflexivity.
Qed.

(** C7: a buffer in ENV mode whose rest, [abcdEfgh], has no marker.  The
    call on the rest raises ValueError, not InvalidFileError, because of
    the [E] at index 4 (the defect of C3), and the except clause lets
    ValueError through. *)
Theorem split_isf_header_env_without_marker :
  let data := Bytes.of_string ":WFMPRE:PT_FMT ENV;:CURVE #10abcdEfgh" in
  let rest := Bytes.of_string "abcdEfgh" in
  field_of (parse_isf_header ":WFMPRE:PT_FMT ENV;:CURVE #10") "PT_FMT"
  = Some (PyStr "ENV") /\
  splitting_point data 27 = Ok (29, 0) /\
  Seq.slice data (Some (29 + 0)) None = rest /\
  Bytes.find curve rest = -1 /\
  (forall depth, split_isf_header (S depth) rest = Raise ValueError) /\
  (forall depth, split_isf_header (S (S depth)) data = Raise ValueError).
Proof.
  repeat split; intros; vm_compute; reflexivity.
Qed.

(** C5, as the specification states it, fails: in [':CURVE #1234567'] the
    digit is 1, so [pad_char] is 2; the length of the payload is read from
    the one byte after the digit and is 2, not from the two bytes after it,
    which spell 23; and the payload returned is the two bytes [34]. *)
Lemma data_len_is_not_pad_char_bytes :
  let data := Bytes.of_string ":CURVE #1234567" in
  separator_end data = Ok 8 /\
  splitting_point data 8 = Ok (8 + 2, 2) /\
  claimed_data_len data 8 = Ok 23 /\
  (forall depth,
     data_in (split_isf_header (S depth) data) = Ok (Bytes.of_string "34")).
Proof.
  repeat split; intros; vm_compute; reflexivity.
Qed.

(** C5, amended: when the byte at the offset [find] after the separator
    reads as the integer [d], and the [d] bytes after it (that is
    [pad_char - 1] bytes, [pad_char = d + 1]) read as the integer
    [data_len], and the buffer holds [data_len] more bytes, then the header
    text is the prefix of the buffer of length [find + pad_char], the
    payload is the [data_len] bytes that follow it, and, outside the ENV
    mode, [split_isf_header] returns the header parsed from that text
    together with that payload. *)
Theorem split_isf_header_layout depth data find d data_len header :
  separator_end data = Ok find ->
  Builtins.py_int
    (Bytes.decode (Seq.slice data (Some find) (Some (find + 1)))) = Ok d ->
  Builtins.py_int
    (Bytes.decode (Seq.slice data (Some (find + 1)) (Some (find + 1 + d))))
  = Ok data_len ->
  0 <= d ->
  0 <= data_len ->
  find + (d + 1) + data_len <= Bytes.len data ->
  parse_isf_header (Bytes.decode (take (Z.to_nat (find + (d + 1))) data))
  = Ok header ->
  (forall v, header !! "PT_FMT" = Some v -> eq_str v "ENV" = false) ->
  exists bin_data rest,
    data = (take (Z.to_nat (find + (d + 1))) data ++ bin_data ++ rest)%list /\
    Bytes.len bin_data = data_len /\
    split_isf_header (S depth) data = Ok (header, bin_data).
Proof.
  intros Hsep Hd Hn Hd0 Hn0 Hlen Hh Hfmt.
  pose proof (separator_end_ge _ _ Hsep) as Hfind.
  unfold Bytes.len in *.
  set (split := find + (d + 1)) in *.
  exists (take (Z.to_nat data_len) (drop (Z.to_nat split) data)),
         (drop (Z.to_nat data_len) (drop (Z.to_nat split) data)).
  split; [|split].
  - rewrite !take_drop. reflexivity.
  - rewrite length_take, length_drop. lia.
  - rewrite split_isf_header_S, Hsep. cbn [rbind].
    unfold splitting_point. rewrite Hd. cbn [rbind].
    replace (find + (d + 1)) with (find + 1 + d) by lia.
    rewrite Hn. cbn [rbind]. cbv zeta.
    replace (find + 1 + d) with split by (unfold split; lia).
    rewrite slice_prefix by lia. rewrite Hh. cbn [rbind].
    destruct (proj2 (parse_isf_header_keys _ _ Hh "PT_FMT") schema_PT_FMT)
      as [v Hv].
    unfold getitem. rewrite Hv. cbn [rbind]. rewrite (Hfmt v Hv).
    rewrite slice_middle by lia.
    replace (split + data_len - split) with data_len by lia. reflexivity.
Qed.

Lemma split_isf_header_layout_witness :
  exists bin_data,
    data_in (split_isf_header 1 scenario) = Ok bin_data /\
    Bytes.len bin_data = 3.
Proof.
  assert (X : field_of (parse_isf_header
                (Bytes.decode (take (Z.to_nat (121 + (1 + 1))) scenario))) "PT_FMT"
              = Some (PyStr "Y")) by (vm_compute; reflexivity).
  destruct (parse_isf_header
              (Bytes.decode (take (Z.to_nat (121 + (1 + 1))) scenario)))
    as [header|e] eqn:Hh; [|discriminate X].
  destruct (split_isf_header_layout 0 scenario 121 1 3 header)
    as (bin_data & rest & _ & Hlen & Hrun).
  - vm_compute. reflexivity.
  - vm_compute. reflexivity.
  - vm_compute. reflexivity.
  - lia.
  - lia.
  - vm_compute. discriminate.
  - exact Hh.
  - intros v Hv. simpl in X. rewrite X in Hv. injection Hv as <-. reflexivity.
  - exists bin_data. rewrite Hrun. split; [reflexivity | exact Hlen].
Defined.

(** ** [parse_isf_data]: claims C1, C2 and C6 *)

Lemma wrap64_small z :
  Numpy.int64_min <= z <= Numpy.int64_max -> Numpy.wrap64 z = z.
Proof.
  unfold Numpy.int64_min, Numpy.int64_max, Numpy.wrap64. intros H.
  rewrite Z.mod_small; lia.
Qed.

Lemma lookup_map {A B} (f : A -> B) (l : list A) (i : nat) :
  map f l !! i = f <$> (l !! i).
Proof.
  revert i. induction l as [|a l IH]; intros [|i]; simpl; auto.
Qed.

(** With a calibrated header, only two steps of the decoder can raise:
    [np.fromstring] and [np.array]. *)
Lemma decode_samples_calibrated header c bin_data :
  calibrated_by header c ->
  decode_samples header bin_data =
  let? raw := raw_samples c bin_data in
  Numpy.columns
    (map (fun i => (Numpy.to_float64 (Numpy.wrap64 (i - pt_off c)) * xincr c
                    + xzero c)%float)
         (map Z.of_nat (seq 0 (Z.to_nat (num_rows c)))))
    (map (y_of (yoff c) (ymult c) (yzero c)) raw).
Proof.
  intros (H1 & H2 & H3 & H4 & H5 & H6 & H7 & H8 & H9 & H10 & Hsize & Hrange).
  unfold decode_samples, getitem, raw_samples.
  rewrite H1, H2, H3, H4, H5, H6, H7, H8, H9, H10. cbn [rbind].
  rewrite Hsize. cbn [rbind].
  destruct (Numpy.fromstring _ _ _ _) as [raw|e]; cbn [rbind]; [|reflexivity].
  unfold Numpy.arange, Numpy.int_sub. cbn [rbind].
  destruct (Z.leb_spec Numpy.int64_min (pt_off c)); [|lia].
  destruct (Z.leb_spec (pt_off c) Numpy.int64_max); [|lia].
  cbn [andb rbind]. unfold Numpy.int_float_op, Numpy.float_op. cbn [rbind].
  rewrite !map_map. reflexivity.
Qed.

Lemma itemsize_value b size :
  Numpy.itemsize (PyInt b) = Ok size -> Z.of_nat size = b /\ (0 < size)%nat.
Proof.
  unfold Numpy.itemsize. intros H.
  repeat case_match; try discriminate; injection H as <-; split; lia.
Qed.

Lemma fromstring_Ok big signed size data raw :
  (0 < size)%nat ->
  Numpy.fromstring big signed size data = Ok raw ->
  (length data = length raw * size)%nat.
Proof.
  unfold Numpy.fromstring. intros Hsize.
  destruct (Nat.eqb_spec (length data mod size) 0) as [Hmod|]; [|discriminate].
  intros [= <-]. rewrite length_map, length_seq.
  pose proof (Nat.div_mod_eq (length data) size). nia.
Qed.

Lemma fromstring_raise big signed size data e :
  Numpy.fromstring big signed size data = Raise e -> e = ValueError.
Proof.
  unfold Numpy.fromstring. destruct (_ =? _)%nat; [discriminate|].
  intros [= <-]. reflexivity.
Qed.

Lemma getitem_Ok (header : gmap string pyval) (key : string) (v : pyval) :
  getitem header key = Ok v -> header !! key = Some v.
Proof.
  unfold getitem. destruct (header !! key) as [w|]; [|discriminate].
  intros [= ->]. reflexivity.
Qed.

Lemma columns_Ok xdata ydata array :
  Numpy.columns xdata ydata = Ok array ->
  length xdata = length ydata /\ length array = length xdata.
Proof.
  unfold Numpy.columns.
  destruct (Nat.eqb_spec (length xdata) (length ydata)) as [E|]; [|discriminate].
  intros [= <-]. split; [exact E|]. rewrite length_zip_with. lia.
Qed.

Lemma itemsize_Ok v size :
  Numpy.itemsize v = Ok size -> exists b, v = PyInt b.
Proof. intros H. destruct v; try discriminate H. eauto. Qed.

Lemma arange_Ok v rows :
  Numpy.arange v = Ok rows ->
  exists n, v = PyInt n /\ length rows = Z.to_nat n.
Proof.
  intros H. destruct v as [|n| |]; try discriminate H. injection H as <-.
  exists n. split; [reflexivity|]. rewrite length_map, length_seq. reflexivity.
Qed.

(** An operation that returns has kept the length of the array, and on
    an array that is not empty its operand was of the right type. *)
Lemma int_sub_Ok a k r :
  Numpy.int_sub a k = Ok r ->
  length r = length a /\
  (a <> [] ->
   exists z, k = PyInt z /\ Numpy.int64_min <= z <= Numpy.int64_max).
Proof.
  unfold Numpy.int_sub. intros H. destruct k as [|z| |]; try discriminate H.
  - destruct a; [|discriminate H]. injection H as <-.
    split; [reflexivity|congruence].
  - destruct (Z.leb_spec Numpy.int64_min z); [|discriminate H].
    destruct (Z.leb_spec z Numpy.int64_max); [|discriminate H].
    cbn [andb] in H. injection H as <-. rewrite length_map.
    split; [reflexivity|]. intros _. exists z. split; [reflexivity|lia].
Qed.

Lemma float_op_Ok op a x r :
  Numpy.float_op op a x = Ok r ->
  length r = length a /\ (a <> [] -> exists f, x = PyFloat f).
Proof.
  unfold Numpy.float_op. intros H. destruct x as [| |f|]; try discriminate H.
  - destruct a; [|discriminate H]. injection H as <-.
    split; [reflexivity|congruence].
  - injection H as <-. rewrite length_map. split; [reflexivity|eauto].
Qed.

Lemma int_float_op_Ok op a x r :
  Numpy.int_float_op op a x = Ok r ->
  length r = length a /\ (a <> [] -> exists f, x = PyFloat f).
Proof.
  unfold Numpy.int_float_op. intros H. apply float_op_Ok in H as [L T].
  rewrite length_map in L. split; [exact L|]. intros Ha. apply T.
  destruct a; [congruence|discriminate].
Qed.

Lemma length_nonempty {A} (l : list A) : (0 < length l)%nat -> l <> [].
Proof. destruct l; simpl; [lia|discriminate]. Qed.

(** What the decoder has met when it returns an array: integers under
    NR_PT and BYT_NR, a payload of as many samples as the array has rows,
    and, when the array has a row, a calibrated header. *)
Lemma decode_samples_Ok header bin_data array :
  decode_samples header bin_data = Ok array ->
  exists n b size byt_or bn_fmt raw,
    header !! "NR_PT" = Some (PyInt n) /\
    header !! "BYT_NR" = Some (PyInt b) /\
    header !! "BYT_OR" = Some byt_or /\
    header !! "BN_FMT" = Some bn_fmt /\
    Numpy.itemsize (PyInt b) = Ok size /\
    Numpy.fromstring (eq_str byt_or "MSB") (eq_str bn_fmt "RI") size bin_data
      = Ok raw /\
    length raw = Z.to_nat n /\
    length array = Z.to_nat n /\
    (array <> [] -> exists c, calibrated_by header c).
Proof.
  unfold decode_samples. intros H.
  apply rbind_Ok in H as (v1 & H1 & H). apply getitem_Ok in H1.
  apply rbind_Ok in H as (v2 & H2 & H). apply getitem_Ok in H2.
  apply rbind_Ok in H as (v3 & H3 & H). apply getitem_Ok in H3.
  apply rbind_Ok in H as (v4 & H4 & H). apply getitem_Ok in H4.
  apply rbind_Ok in H as (v5 & H5 & H). apply getitem_Ok in H5.
  apply rbind_Ok in H as (v6 & H6 & H). apply getitem_Ok in H6.
  apply rbind_Ok in H as (v7 & H7 & H). apply getitem_Ok in H7.
  apply rbind_Ok in H as (v8 & H8 & H). apply getitem_Ok in H8.
  apply rbind_Ok in H as (v9 & H9 & H). apply getitem_Ok in H9.
  apply rbind_Ok in H as (v10 & H10 & H). apply getitem_Ok in H10.
  cbv zeta in H.
  apply rbind_Ok in H as (size & Hsize & H).
  apply rbind_Ok in H as (raw & Hraw & H).
  apply rbind_Ok in H as (rows & Hrows & H).
  apply rbind_Ok in H as (shifted & Hshift & H).
  apply rbind_Ok in H as (scaled & Hscaled & H).
  apply rbind_Ok in H as (xdata & Hx & H).
  apply rbind_Ok in H as (y1 & Hy1 & H).
  apply rbind_Ok in H as (y2 & Hy2 & H).
  apply rbind_Ok in H as (ydata & Hy & H).
  apply columns_Ok in H as [Hlen Harr].
  destruct (itemsize_Ok _ _ Hsize) as [b ->].
  apply arange_Ok in Hrows as (n & -> & Hn).
  apply int_sub_Ok in Hshift as [L1 T1].
  apply int_float_op_Ok in Hscaled as [L2 T2].
  apply float_op_Ok in Hx as [L3 T3].
  apply int_float_op_Ok in Hy1 as [L4 T4].
  apply float_op_Ok in Hy2 as [L5 T5].
  apply float_op_Ok in Hy as [L6 T6].
  exists n, b, size, v8, v9, raw.
  split; [exact H1|]. split; [exact H10|]. split; [exact H8|].
  split; [exact H9|]. split; [exact Hsize|]. split; [exact Hraw|].
  split; [lia|]. split; [lia|].
  intros Harray.
  assert (Hpos : (0 < length array)%nat)
    by (destruct array; [congruence | simpl; lia]).
  destruct T1 as (p & -> & Hp); [apply length_nonempty; lia|].
  destruct T2 as (xi & ->); [apply length_nonempty; lia|].
  destruct T3 as (xz & ->); [apply length_nonempty; lia|].
  destruct T4 as (yo & ->); [apply length_nonempty; lia|].
  destruct T5 as (ym & ->); [apply length_nonempty; lia|].
  destruct T6 as (yz & ->); [apply length_nonempty; lia|].
  exists (Calibration n p xi xz yo ym yz v8 v9 b size).
  unfold calibrated_by; simpl. repeat split; try assumption; lia.
Qed.

(** Each field of the schema is there when the header comes from
    [parse_isf_header]; these are the ones the decoder reads. *)
Lemma decoder_fields (header : gmap string pyval) :
  (forall key, In key schema -> is_Some (header !! key)) ->
  forall key,
    In key ["NR_PT"; "YOFF"; "YMULT"; "YZERO"; "PT_OFF"; "XINCR"; "XZERO";
            "BYT_OR"; "BN_FMT"; "BYT_NR"] ->
    is_Some (header !! key).
Proof.
  intros Hkeys key Hk. apply Hkeys. simpl in Hk.
  repeat (destruct Hk as [<-|Hk]); [..|destruct Hk]; vm_compute; tauto.
Qed.

(** [np.fromstring] comes first: with a width that NumPy knows and a
    payload whose length is no multiple of it, nothing else is computed. *)
Lemma decode_samples_not_multiple header bin_data b size :
  (forall key, In key schema -> is_Some (header !! key)) ->
  header !! "BYT_NR" = Some (PyInt b) ->
  Numpy.itemsize (PyInt b) = Ok size ->
  (length bin_data mod size <> 0)%nat ->
  decode_samples header bin_data = Raise ValueError.
Proof.
  intros Hkeys Hb Hsize Hmod. pose proof (decoder_fields _ Hkeys) as Hin.
  unfold decode_samples, getitem.
  destruct (Hin "NR_PT") as [v1 ->]; [simpl; tauto|].
  destruct (Hin "YOFF") as [v2 ->]; [simpl; tauto|].
  destruct (Hin "YMULT") as [v3 ->]; [simpl; tauto|].
  destruct (Hin "YZERO") as [v4 ->]; [simpl; tauto|].
  destruct (Hin "PT_OFF") as [v5 ->]; [simpl; tauto|].
  destruct (Hin "XINCR") as [v6 ->]; [simpl; tauto|].
  destruct (Hin "XZERO") as [v7 ->]; [simpl; tauto|].
  destruct (Hin "BYT_OR") as [v8 ->]; [simpl; tauto|].
  destruct (Hin "BN_FMT") as [v9 ->]; [simpl; tauto|].
  rewrite Hb. cbn [rbind]. rewrite Hsize. cbn [rbind].
  unfold Numpy.fromstring.
  destruct (Nat.eqb_spec (length bin_data mod size) 0) as [E|_];
    [contradiction|reflexivity].
Qed.

(** C1: when [split_isf_header] returns a header that is calibrated and a
    payload that decodes to as many raw samples as NR_PT says, and no
    [i - PT_OFF] leaves the range of int64, [parse_isf_data] returns NR_PT
    rows, in the order of the samples, with
    [x = (i - PT_OFF) * XINCR + XZERO] and
    [y = (raw - YOFF) * YMULT + YZERO] in row [i]. *)
Theorem parse_isf_data_calibrates depth data with_header header bin_data c raw :
  split_isf_header depth (as_bytes data) = Ok (header, bin_data) ->
  calibrated_by header c ->
  raw_samples c bin_data = Ok raw ->
  Z.of_nat (length raw) = num_rows c ->
  Numpy.int64_min + num_rows c <= pt_off c ->
  exists array,
    parse_isf_data depth data with_header =
      Ok (array, if with_header then Some header else None) /\
    Z.of_nat (length array) = num_rows c /\
    forall (i : nat) (r : Z),
      raw !! i = Some r ->
      array !! i = Some (x_of (pt_off c) (xincr c) (xzero c) (Z.of_nat i),
                         y_of (yoff c) (ymult c) (yzero c) r).
Proof.
  intros Hsplit Hc Hraw Hlen Hoff.
  pose proof Hc as (_ & _ & _ & _ & _ & _ & _ & _ & _ & _ & _ & Hrange).
  unfold parse_isf_data. cbv zeta. rewrite Hsplit. cbn [rbind].
  rewrite (decode_samples_calibrated _ _ _ Hc), Hraw. cbn [rbind].
  unfold Numpy.columns.
  rewrite !length_map, length_seq, <- Hlen, Nat2Z.id, Nat.eqb_refl. cbn [rbind].
  eexists. split; [destruct with_header; reflexivity|]. split.
  - rewrite length_zip_with, !length_map, length_seq. lia.
  - intros i r Hi. pose proof (lookup_lt_Some _ _ _ Hi) as Hlt.
    rewrite lookup_zip_with, !lookup_map, Hi, lookup_seq_lt by exact Hlt.
    simpl. unfold x_of. rewrite wrap64_small; [reflexivity|].
    unfold Numpy.int64_min, Numpy.int64_max in *. lia.
Qed.

(** C2: on the buffer of the scenario, whose header says LSB, RI and one
    byte per sample, the payload is read as the signed bytes 1, -1, 2 and
    [parse_isf_data] returns X = [0.0, 1.0, 2.0] and Y = [2.0, -2.0, 4.0]. *)
Theorem scenario_decodes (depth : nat) :
  let header := header_in (split_isf_header (S depth) scenario) in
  field_of header "BYT_OR" = Some (PyStr "LSB") /\
  field_of header "BN_FMT" = Some (PyStr "RI") /\
  field_of header "BYT_NR" = Some (PyInt 1) /\
  data_in (split_isf_header (S depth) scenario) = Ok [x01; xff; x02] /\
  Numpy.fromstring false true 1 [x01; xff; x02] = Ok [1; -1; 2] /\
  exists array,
    parse_isf_data (S depth) (DataBytes scenario) false = Ok (array, None) /\
    map fst array = [0; 1; 2]%float /\
    map snd array = [2; -2; 4]%float.
Proof.
  repeat split; try (vm_compute; reflexivity).
  exists [(0, 2); (1, -2); (2, 4)]%float.
  repeat split; vm_compute; reflexivity.
Qed.

Lemma parse_isf_data_calibrates_witness :
  exists array,
    parse_isf_data 1 (DataBytes scenario) false = Ok (array, None) /\
    Z.of_nat (length array) = 3 /\
    array !! 1%nat = Some (x_of 0 1 0 1, y_of 0 2 0 (-1)).
Proof.
  pose (r := split_isf_header 1 scenario).
  assert (Hd : data_in r = Ok [x01; xff; x02]) by (vm_compute; reflexivity).
  assert (H1 : field_of (header_in r) "NR_PT" = Some (PyInt 3))
    by (vm_compute; reflexivity).
  assert (H2 : field_of (header_in r) "PT_OFF" = Some (PyInt 0))
    by (vm_compute; reflexivity).
  assert (H3 : field_of (header_in r) "XINCR" = Some (PyFloat 1))
    by (vm_compute; reflexivity).
  assert (H4 : field_of (header_in r) "XZERO" = Some (PyFloat 0))
    by (vm_compute; reflexivity).
  assert (H5 : field_of (header_in r) "YOFF" = Some (PyFloat 0))
    by (vm_compute; reflexivity).
  assert (H6 : field_of (header_in r) "YMULT" = Some (PyFloat 2))
    by (vm_compute; reflexivity).
  assert (H7 : field_of (header_in r) "YZERO" = Some (PyFloat 0))
    by (vm_compute; reflexivity).
  assert (H8 : field_of (header_in r) "BYT_OR" = Some (PyStr "LSB"))
    by (vm_compute; reflexivity).
  assert (H9 : field_of (header_in r) "BN_FMT" = Some (PyStr "RI"))
    by (vm_compute; reflexivity).
  assert (H10 : field_of (header_in r) "BYT_NR" = Some (PyInt 1))
    by (vm_compute; reflexivity).
  destruct (split_isf_header 1 scenario) as [[header bin_data]|e] eqn:E;
    subst r; [|discriminate Hd].
  unfold field_of, header_in in *. injection Hd as ->.
  destruct (parse_isf_data_calibrates 1 (DataBytes scenario) false header
              [x01; xff; x02]
              (Calibration 3 0 1 0 0 2 0 (PyStr "LSB") (PyStr "RI") 1 1)
              [1; -1; 2])
    as (array & Ha & Hl & Hi).
  - exact E.
  - unfold calibrated_by. cbn [num_rows pt_off xincr xzero yoff ymult yzero
                               byt_or bn_fmt byte_size size].
    repeat split; try assumption; vm_compute; (reflexivity || discriminate).
  - vm_compute. reflexivity.
  - reflexivity.
  - vm_compute. discriminate.
  - exists array. split; [exact Ha|]. split; [exact Hl|].
    exact (Hi 1%nat (-1) eq_refl).
Defined.

(** C6, as the specification states it, fails: with NR_PT -1 and an empty
    payload the length, 0, is not NR_PT * BYT_NR, yet nothing raises and
    an array without rows is returned. *)
Lemma negative_count_decodes :
  let data := Bytes.of_string
    ":WFMPRE:BYT_NR 1;BN_FMT RI;BYT_OR LSB;NR_PT -1;PT_OFF 0;XINCR 1.0;XZERO 0.0;YOFF 0.0;YMULT 2.0;YZERO 0.0;PT_FMT Y;:CURVE #10" in
  let r := split_isf_header 1 data in
  field_of (header_in r) "NR_PT" = Some (PyInt (-1)) /\
  field_of (header_in r) "BYT_NR" = Some (PyInt 1) /\
  data_in r = Ok [] /\
  Bytes.len [] <> -1 * 1 /\
  parse_isf_data 1 (DataBytes data) false = Ok ([], None).
Proof.
  repeat split; try (vm_compute; reflexivity). vm_compute. discriminate.
Qed.


(** ** Strings joined with semicolons *)

Lemma append_assoc (a b c : string) : (a +:+ b) +:+ c = a +:+ (b +:+ c).
Proof.
  induction a as [|x a IH]; [reflexivity|].
  change (String x ((a +:+ b) +:+ c) = String x (a +:+ (b +:+ c))).
  f_equal. exact IH.
Qed.

Lemma find_cons c d s :
  Str.find c (String d s) = -1 <-> d <> c /\ Str.find c s = -1.
Proof.
  simpl. pose proof (find_ge c s).
  destruct (Ascii.eqb_spec d c) as [->|Hne].
  - split; [lia | tauto].
  - destruct (Z.ltb_spec (Str.find c s) 0); split; intros; try split; (lia || tauto).
Qed.

Lemma find_app_none c a b :
  Str.find c (a +:+ b) = -1 <-> Str.find c a = -1 /\ Str.find c b = -1.
Proof.
  induction a as [|x a IH].
  - change (EmptyString +:+ b) with b. simpl. tauto.
  - change (String x a +:+ b) with (String x (a +:+ b)).
    rewrite !find_cons, IH. tauto.
Qed.

(** The index of the first [c] after a piece that has none. *)
Lemma find_app_first c key val :
  Str.find c key = -1 ->
  Str.find c (key +:+ String c val) = Z.of_nat (String.length key) /\
  Str.split1 c (key +:+ String c val) = [key; val].
Proof.
  induction key as [|x key IH]; intros Hk.
  - change (EmptyString +:+ String c val) with (String c val). simpl.
    rewrite Ascii.eqb_refl. split; reflexivity.
  - apply find_cons in Hk as [Hx Hk]. destruct (IH Hk) as [IH1 IH2].
    change (String x key +:+ String c val) with (String x (key +:+ String c val)).
    simpl. destruct (Ascii.eqb_spec x c); [contradiction|].
    rewrite IH1, IH2. destruct (Z.ltb_spec (Z.of_nat (String.length key)) 0); [lia|].
    split; [lia | reflexivity].
Qed.

Lemma split_none c s : Str.find c s = -1 -> Str.split c s = [s].
Proof.
  induction s as [|x s IH]; intros H; [reflexivity|].
  apply find_cons in H as [Hx Hs]. simpl.
  destruct (Ascii.eqb_spec x c); [contradiction|]. rewrite (IH Hs). reflexivity.
Qed.

Lemma split_app c a rest :
  Str.find c a = -1 ->
  Str.split c (a +:+ String c rest) = a :: Str.split c rest.
Proof.
  induction a as [|x a IH]; intros H.
  - change (EmptyString +:+ String c rest) with (String c rest). simpl.
    rewrite Ascii.eqb_refl. reflexivity.
  - apply find_cons in H as [Hx Ha].
    change (String x a +:+ String c rest) with (String x (a +:+ String c rest)).
    simpl. destruct (Ascii.eqb_spec x c); [contradiction|].
    rewrite (IH Ha). reflexivity.
Qed.

(** Splitting undoes joining, when no piece holds the separator. *)
Lemma split_concat c toks :
  toks <> [] ->
  Forall (fun t => Str.find c t = -1) toks ->
  Str.split c (String.concat (String c EmptyString) toks) = toks.
Proof.
  induction toks as [|t toks IH]; intros Hne Hall; [contradiction|].
  inversion Hall as [|? ? Ht Htoks]; subst.
  destruct toks as [|t' toks].
  - simpl. apply split_none. exact Ht.
  - change (String.concat (String c EmptyString) (t :: t' :: toks))
      with (t +:+ String c EmptyString +:+
            String.concat (String c EmptyString) (t' :: toks)).
    change (String c EmptyString +:+ ?x) with (String c x).
    rewrite split_app by exact Ht. rewrite IH; [reflexivity | discriminate | exact Htoks].
Qed.

Lemma rstrip_none c b :
  Str.find c b = -1 -> Str.rstrip [c] b = b.
Proof.
  induction b as [|x b IH]; intros H; [reflexivity|].
  apply find_cons in H as [Hx Hb]. simpl. rewrite (IH Hb).
  destruct b; [|reflexivity].
  destruct (Ascii.eqb_spec x c); [contradiction | reflexivity].
Qed.

Lemma rstrip_app c a b :
  b <> EmptyString -> Str.find c b = -1 ->
  Str.rstrip [c] (a +:+ b) = a +:+ b.
Proof.
  intros Hb Hc. induction a as [|x a IH].
  - apply rstrip_none. exact Hc.
  - change (String x a +:+ b) with (String x (a +:+ b)). simpl. rewrite IH.
    destruct (a +:+ b) eqn:E; [|reflexivity].
    destruct a; [|discriminate E]. contradiction.
Qed.

(** A joined string ends with its last piece. *)
Lemma concat_last sep toks :
  toks <> [] ->
  exists a b, String.concat sep toks = a +:+ b /\ In b toks.
Proof.
  induction toks as [|t toks IH]; intros Hne; [contradiction|].
  destruct toks as [|t' toks].
  - exists EmptyString, t. split; [reflexivity | left; reflexivity].
  - destruct IH as (a & b & Heq & Hin); [discriminate|].
    exists (t +:+ sep +:+ a), b. split; [|right; exact Hin].
    change (String.concat sep (t :: t' :: toks))
      with (t +:+ sep +:+ String.concat sep (t' :: toks)).
    rewrite Heq, !append_assoc. reflexivity.
Qed.

Lemma concat_first sep t toks :
  exists rest, String.concat sep (t :: toks) = t +:+ rest.
Proof.
  destruct toks as [|t' toks].
  - exists EmptyString. simpl. induction t as [|x t IH]; [reflexivity|].
    change (String x t = String x (t +:+ EmptyString)). f_equal. exact IH.
  - eexists. reflexivity.
Qed.

(** The pairs of a text made of pieces that are not empty and hold no
    semicolon are the pieces. *)
Lemma kv_pairs_concat toks :
  toks <> [] ->
  Forall (fun t => t <> EmptyString /\ Str.find ";" t = -1) toks ->
  kv_pairs (String.concat ";" toks) = toks.
Proof.
  intros Hne Hall. unfold kv_pairs, Str.strip.
  assert (Hsemi : Forall (fun t => Str.find ";" t = -1) toks).
  { eapply Forall_impl; [exact Hall|]. intros t [_ Ht]. exact Ht. }
  assert (Hl : Str.lstrip [";"%char] (String.concat ";" toks)
               = String.concat ";" toks).
  { destruct toks as [|t toks]; [contradiction|].
    destruct (concat_first ";" t toks) as [rest ->].
    inversion Hall as [|? ? [Ht1 Ht2] _]; subst.
    destruct t as [|x t]; [contradiction|].
    apply find_cons in Ht2 as [Hx _].
    change (String x t +:+ rest) with (String x (t +:+ rest)). simpl.
    destruct (Ascii.eqb_spec x ";"); [contradiction | reflexivity]. }
  rewrite Hl.
  destruct (concat_last ";" toks Hne) as (a & b & Heq & Hin).
  rewrite Forall_forall in Hall. destruct (Hall b) as [Hb1 Hb2].
  { apply list_elem_of_In. exact Hin. }
  rewrite Heq, rstrip_app by assumption. rewrite <- Heq.
  apply split_concat; assumption.
Qed.

(** ** The two dialects: claim C8 *)

(** One turn of the loop on a pair written as a key, a space and a value. *)
Lemma header_item_key remove header key val :
  key <> EmptyString -> Str.find " " key = -1 ->
  header_item remove header (key +:+ String " " val) =
  match canonical remove key with
  | Some (k, p) => let? v := parse_value p val in Ok (<[k := v]> header)
  | None => Ok header
  end.
Proof.
  intros Hne Hk. rewrite header_item_eq. unfold item_field.
  destruct (find_app_first " " key val Hk) as [-> ->].
  destruct key as [|x key]; [contradiction|].
  destruct (Z.eqb_spec (Z.of_nat (String.length (String x key))) 0) as [E|_];
    [simpl in E; lia|].
  destruct (Z.eqb_spec (Z.of_nat (String.length (String x key))) (-1)) as [E|_];
    [lia|].
  destruct (canonical remove (String x key)) as [[k p]|]; reflexivity.
Qed.

(** The long and the short spelling of a field name the same field, with
    and without the namespace prefix of their dialect. *)
Lemma spellings_agree field :
  In field schema ->
  let long := spelling SCOPE1_HD field in
  let short := spelling SCOPE2_HD field in
  canonical ":WFMPRE:" (":WFMPRE:" +:+ long) = canonical ":WFMP:" (":WFMP:" +:+ short) /\
  canonical ":WFMPRE:" long = canonical ":WFMP:" short /\
  (long <> EmptyString /\ short <> EmptyString) /\
  (Str.find " " long = -1 /\ Str.find " " short = -1) /\
  (Str.find ";" long = -1 /\ Str.find ";" short = -1).
Proof.
  intros H. unfold schema in H. simpl in H.
  repeat (destruct H as [<-|H]); [..|destruct H];
    repeat split; vm_compute; (reflexivity || discriminate).
Qed.

Lemma append_empty (a : string) : a +:+ EmptyString = a.
Proof.
  induction a as [|x a IH]; [reflexivity|].
  change (String x (a +:+ EmptyString) = String x a). f_equal. exact IH.
Qed.

Lemma concat_prefix sep prefix t ts :
  prefix +:+ String.concat sep (t :: ts) = String.concat sep ((prefix +:+ t) :: ts).
Proof.
  destruct ts as [|t' ts]; [reflexivity|].
  change (prefix +:+ (t +:+ sep +:+ String.concat sep (t' :: ts)) =
          (prefix +:+ t) +:+ sep +:+ String.concat sep (t' :: ts)).
  rewrite append_assoc. reflexivity.
Qed.

Lemma pair_text_pieces table fv :
  Str.find ";" (spelling table fv.1) = -1 -> Str.find ";" fv.2 = -1 ->
  pair_text table fv <> EmptyString /\ Str.find ";" (pair_text table fv) = -1.
Proof.
  intros Hk Hv. unfold pair_text.
  change (" " +:+ fv.2) with (String " " fv.2). split.
  - destruct (spelling table fv.1); discriminate.
  - apply find_app_none. split; [exact Hk|].
    apply find_cons. split; [discriminate | exact Hv].
Qed.

(** The pairs of a header text written in one dialect. *)
Lemma kv_pairs_header_text table prefix fields :
  prefix <> EmptyString -> Str.find ";" prefix = -1 ->
  Forall (fun fv => Str.find ";" (spelling table fv.1) = -1 /\
                    Str.find ";" fv.2 = -1) fields ->
  kv_pairs (header_text_of table prefix fields) =
  match fields with
  | [] => [prefix]
  | fv :: fs => (prefix +:+ pair_text table fv) :: map (pair_text table) fs
  end.
Proof.
  intros Hp1 Hp2 Hall. unfold header_text_of.
  destruct fields as [|fv fs].
  - simpl. rewrite append_empty.
    apply (kv_pairs_concat [prefix]); [discriminate|].
    constructor; [split; assumption | constructor].
  - change (map (pair_text table) (fv :: fs))
      with (pair_text table fv :: map (pair_text table) fs).
    rewrite concat_prefix. apply kv_pairs_concat; [discriminate|].
    inversion Hall as [|? ? [Hk Hv] Hfs]; subst. constructor.
    + destruct (pair_text_pieces table fv Hk Hv) as [_ Hsemi]. split.
      * destruct prefix; [contradiction | discriminate].
      * apply find_app_none. split; assumption.
    + clear Hall Hk Hv. induction Hfs as [|fv' fs' [Hk Hv] _ IH]; simpl; constructor.
      * apply pair_text_pieces; assumption.
      * exact IH.
Qed.

Lemma contains_prefix p s : Str.contains p (p +:+ s) = true.
Proof.
  assert (H : String.prefix p (p +:+ s) = true).
  { induction p as [|x p IH]; [destruct s; reflexivity|].
    change (String x p +:+ s) with (String x (p +:+ s)). simpl.
    destruct (Ascii.ascii_dec x x); [exact IH | contradiction]. }
  destruct (p +:+ s); simpl in *; rewrite H; reflexivity.
Qed.

(** C8, as the specification states it, fails: when a value holds the text
    [:WFMPRE:], the header text of the short dialect is taken for one of
    the long dialect, its prefix [:WFMP:] is not removed, and the first
    field is lost. *)
Lemma dialects_differ :
  let fields := [("BYT_NR", "1"); ("WFID", "x:WFMPRE:y")] in
  let long := header_text_of SCOPE1_HD ":WFMPRE:" fields in
  let short := header_text_of SCOPE2_HD ":WFMP:" fields in
  long = ":WFMPRE:BYT_NR 1;WFID x:WFMPRE:y" /\
  short = ":WFMP:BYT_N 1;WFI x:WFMPRE:y" /\
  field_of (parse_isf_header long) "BYT_NR" = Some (PyInt 1) /\
  field_of (parse_isf_header short) "BYT_NR" = Some PyNone /\
  parse_isf_header long <> parse_isf_header short.
Proof.
  repeat split; try (vm_compute; reflexivity).
  intros H. apply (f_equal (fun r => field_of r "BYT_NR")) in H.
  vm_compute in H. discriminate H.
Qed.

(** C8, amended: for every list of schema fields with values that hold no
    semicolon, the header text written with the prefix [:WFMPRE:] and the
    long keys and the one written with the prefix [:WFMP:] and the short
    keys give the same result under [parse_isf_header], provided the text
    [:WFMPRE:] does not occur in the latter. *)
Theorem dialects_agree (fields : list (string * string)) :
  Forall (fun fv => In fv.1 schema /\ Str.find ";" fv.2 = -1) fields ->
  Str.contains ":WFMPRE:" (header_text_of SCOPE2_HD ":WFMP:" fields) = false ->
  parse_isf_header (header_text_of SCOPE1_HD ":WFMPRE:" fields) =
  parse_isf_header (header_text_of SCOPE2_HD ":WFMP:" fields).
Proof.
  intros Hall Hshort. unfold parse_isf_header, prefix_of.
  rewrite Hshort.
  unfold header_text_of at 1. rewrite contains_prefix.
  fold (header_text_of SCOPE1_HD ":WFMPRE:" fields).
  assert (Hlong : Forall (fun fv => Str.find ";" (spelling SCOPE1_HD fv.1) = -1 /\
                                    Str.find ";" fv.2 = -1) fields).
  { eapply Forall_impl; [exact Hall|]. intros fv [Hf Hv].
    destruct (spellings_agree fv.1 Hf) as (_ & _ & _ & _ & [Hl _]). auto. }
  assert (Hshort' : Forall (fun fv => Str.find ";" (spelling SCOPE2_HD fv.1) = -1 /\
                                      Str.find ";" fv.2 = -1) fields).
  { eapply Forall_impl; [exact Hall|]. intros fv [Hf Hv].
    destruct (spellings_agree fv.1 Hf) as (_ & _ & _ & _ & [_ Hs]). auto. }
  rewrite (kv_pairs_header_text SCOPE1_HD ":WFMPRE:" fields)
    by (discriminate || reflexivity || exact Hlong).
  rewrite (kv_pairs_header_text SCOPE2_HD ":WFMP:" fields)
    by (discriminate || reflexivity || exact Hshort').
  clear Hlong Hshort'.
  destruct fields as [|fv fs].
  - cbn [for_each]. rewrite !header_item_eq. reflexivity.
  - inversion Hall as [|? ? [Hf Hv] Hfs]; subst.
    apply for_each_ext. constructor.
    + intros header.
      destruct (spellings_agree fv.1 Hf) as (Hc & _ & [Hl Hs] & [Hl' Hs'] & _).
      unfold pair_text. change (" " +:+ fv.2) with (String " " fv.2).
      rewrite <- !append_assoc.
      rewrite !header_item_key; [rewrite Hc; reflexivity | | | | ].
      * discriminate.
      * apply find_app_none. split; [reflexivity | exact Hs'].
      * discriminate.
      * apply find_app_none. split; [reflexivity | exact Hl'].
    + clear Hall Hshort Hf Hv.
      induction Hfs as [|fv' fs' [Hf Hv] _ IH]; simpl; constructor; [|exact IH].
      intros header.
      destruct (spellings_agree fv'.1 Hf) as (_ & Hc & [Hl Hs] & [Hl' Hs'] & _).
      unfold pair_text. change (" " +:+ fv'.2) with (String " " fv'.2).
      rewrite !header_item_key by assumption. rewrite Hc. reflexivity.
Qed.

Lemma dialects_agree_witness :
  let fields := [("BYT_NR", "1"); ("XINCR", "1.0"); ("WFID", "Ch1, DC")] in
  parse_isf_header (header_text_of SCOPE1_HD ":WFMPRE:" fields) =
  parse_isf_header (header_text_of SCOPE2_HD ":WFMP:" fields).
Proof.
  intros fields. apply (dialects_agree fields).
  - repeat (constructor;
            [split; [vm_compute; repeat (first [left; reflexivity | right])
                    | reflexivity]|]).
    constructor.
  - vm_compute. reflexivity.
Defined.

(** ** The types of the values of a header *)

Lemma parse_value_type p val v : parse_value p val = Ok v -> has_type p v.
Proof.
  destruct p; simpl.
  - destruct (Builtins.py_int val); simpl; [intros [= <-]; exact I | discriminate].
  - intros [= <-]. exact I.
  - destruct (Builtins.py_float val); simpl; [intros [= <-]; exact I | discriminate].
  - intros [= <-]. exact I.
Qed.

Lemma item_field_dispatcher remove kv key p val :
  item_field remove kv = Some (key, p, val) -> dispatcher key = Some p.
Proof.
  unfold item_field. intros H.
  destruct (Str.find " " kv =? 0); [discriminate H|].
  destruct (Str.split1 " " kv) as [|k1 [|v1 [|]]]; try discriminate H.
  destruct (canonical remove k1) as [[k q]|] eqn:C; [|discriminate H].
  injection H as <- <- <-. unfold canonical in C.
  destruct (CORRECTING_HD !! _) as [[k'|]|]; try discriminate C.
  destruct (dispatcher k') eqn:D; [|discriminate C].
  injection C as <- <-. exact D.
Qed.

Lemma empty_header_typed : typed empty_header.
Proof.
  intros key p v Hp Hv. left.
  rewrite empty_header_schema in Hv by eauto using dispatcher_schema.
  congruence.
Qed.

Lemma for_each_header_typed remove l : forall header header',
  typed header ->
  for_each (header_item remove) header l = Ok header' ->
  typed header'.
Proof.
  induction l as [|kv l IH]; intros header header' Ht; simpl.
  - intros [= <-]. exact Ht.
  - intros H. apply rbind_Ok in H as (h1 & H1 & H2).
    apply (IH h1); [|exact H2].
    apply header_item_Ok in H1 as [->|(k & p & val & v & F & E & ->)]; [exact Ht|].
    intros key q w Hq Hw. destruct (String.string_dec k key) as [->|Hne].
    + rewrite lookup_insert_eq in Hw. injection Hw as <-.
      apply item_field_dispatcher in F. rewrite F in Hq. injection Hq as <-.
      right. eapply parse_value_type. exact E.
    + rewrite lookup_insert_ne in Hw by exact Hne. eapply Ht; eassumption.
Qed.

Lemma parse_isf_header_typed header_text header :
  parse_isf_header header_text = Ok header -> typed header.
Proof.
  unfold parse_isf_header. apply for_each_header_typed, empty_header_typed.
Qed.

(** The header that [split_isf_header] returns is typed: the decoder meets
    under NR_PT, PT_OFF and BYT_NR an int or [None], and under the five
    calibration constants a float or [None]. *)
Lemma split_isf_header_typed depth : forall data header bin_data,
  split_isf_header depth data = Ok (header, bin_data) -> typed header.
Proof.
  induction depth as [|depth IH]; intros data header bin_data; [discriminate|].
  rewrite split_isf_header_S.
  destruct (separator_end data) as [find|]; cbn [rbind]; [|discriminate].
  destruct (splitting_point data find) as [[split data_len]|]; cbn [rbind];
    [|discriminate].
  cbv zeta.
  destruct (parse_isf_header _) as [h|] eqn:Hh; cbn [rbind]; [|discriminate].
  destruct (getitem h "PT_FMT") as [pt_fmt|]; cbn [rbind]; [|discriminate].
  destruct (eq_str pt_fmt "ENV").
  - destruct (split_isf_header depth _) as [[h' b']|e] eqn:Hrec.
    + intros [= <- <-]. eapply IH. exact Hrec.
    + destruct e; discriminate.
  - intros [= <- <-]. eapply parse_isf_header_typed. exact Hh.
Qed.

(** * Further properties of [split_isf_header] *)

Lemma slice_prefix_any {A} (l : list A) (k : Z) :
  0 <= k -> Seq.slice l None (Some k) = take (Z.to_nat k) l.
Proof.
  intros Hk. destruct (Z.le_gt_cases k (Z.of_nat (length l))) as [Hle|Hgt].
  - apply slice_prefix. lia.
  - unfold Seq.slice, Seq.bound. destruct (Z.ltb_spec k 0); [lia|].
    rewrite Z.min_r, Z.sub_0_r by lia.
    change (Z.to_nat 0) with 0%nat. rewrite drop_0.
    rewrite !take_ge by lia. reflexivity.
Qed.

Lemma slice_middle_any {A} (l : list A) (a n : Z) :
  0 <= a -> 0 <= n ->
  Seq.slice l (Some a) (Some (a + n)) = take (Z.to_nat n) (drop (Z.to_nat a) l).
Proof.
  intros Ha Hn. unfold Seq.slice, Seq.bound.
  destruct (Z.ltb_spec a 0); [lia|]. destruct (Z.ltb_spec (a + n) 0); [lia|].
  destruct (Z.le_gt_cases (Z.of_nat (length l)) a) as [Hout|Hin].
  - rewrite !Z.min_r by lia. rewrite Z.sub_diag. simpl.
    rewrite (drop_ge l (Z.to_nat a)) by lia. destruct (Z.to_nat n); reflexivity.
  - rewrite (Z.min_l a) by lia.
    destruct (Z.le_gt_cases (a + n) (Z.of_nat (length l))).
    + rewrite Z.min_l by lia. f_equal. lia.
    + rewrite Z.min_r by lia.
      rewrite !take_ge; [reflexivity | |]; rewrite length_drop; lia.
Qed.

Lemma slice_suffix {A} (l : list A) (a : Z) :
  0 <= a -> Seq.slice l (Some a) None = drop (Z.to_nat a) l.
Proof.
  intros Ha. unfold Seq.slice, Seq.bound. destruct (Z.ltb_spec a 0); [lia|].
  destruct (Z.le_gt_cases (Z.of_nat (length l)) a) as [Hout|Hin].
  - rewrite Z.min_r by lia. rewrite Z.sub_diag. simpl.
    rewrite (drop_ge l (Z.to_nat a)) by lia. reflexivity.
  - rewrite Z.min_l by lia. apply take_ge. rewrite length_drop. lia.
Qed.

Lemma slice_one_length {A} (l : list A) (a : Z) :
  (length (Seq.slice l (Some a) (Some (a + 1)%Z)) <= 1)%nat.
Proof.
  unfold Seq.slice. rewrite length_take.
  unfold Seq.bound.
  destruct (Z.ltb_spec a 0); destruct (Z.ltb_spec (a + 1) 0); lia.
Qed.

(** [int] of a string of at most one character is a digit. *)
Lemma py_int_one_byte (bs : list byte) d :
  (length bs <= 1)%nat ->
  Builtins.py_int (Bytes.decode bs) = Ok d -> 0 <= d <= 9.
Proof.
  intros Hlen H. destruct bs as [|b [|b' bs]]; [discriminate H | | simpl in Hlen; lia].
  clear Hlen. destruct b; vm_compute in H;
    solve [discriminate H | injection H as <-; lia].
Qed.

(** The splitting point lies after the digit, at most ten bytes further. *)
Lemma splitting_point_bounds data find split data_len :
  splitting_point data find = Ok (split, data_len) ->
  find + 1 <= split <= find + 10.
Proof.
  unfold splitting_point. intros H.
  apply rbind_Ok in H as (d & Hd & H).
  apply rbind_Ok in H as (n & _ & H). injection H as <- <-.
  apply py_int_one_byte in Hd; [lia | apply slice_one_length].
Qed.

Lemma separator_end_nonempty data find :
  separator_end data = Ok find -> (0 < length data)%nat.
Proof.
  unfold separator_end, Seq.getitem. intros H.
  apply rbind_Ok in H as (b & Hb & _).
  destruct (_ && _) eqn:E; [|discriminate Hb].
  apply andb_true_iff in E as [E1 E2].
  apply Z.leb_le in E1. apply Z.ltb_lt in E2. lia.
Qed.

(** Where there is no marker, InvalidFileError is raised only if the
    buffer has a byte at index 4 and that byte is not [E]; a buffer of
    fewer than five bytes raises IndexError. *)
Theorem split_isf_header_no_marker depth data :
  Bytes.find curve data = -1 ->
  ((length data < 5)%nat ->
   split_isf_header (S depth) data = Raise IndexError) /\
  (forall b, data !! 4%nat = Some b -> b <> "E"%byte ->
             split_isf_header (S depth) data = Raise InvalidFileError).
Proof.
  intros Hfind. rewrite split_isf_header_S. unfold separator_end.
  rewrite Hfind. change (-1 + Bytes.len curve) with 4.
  unfold Seq.getitem. change (4 <? 0) with false. cbv iota.
  change (0 <=? 4) with true. cbn [andb]. split.
  - intros Hlen. destruct (Z.ltb_spec 4 (Z.of_nat (length data))); [lia|].
    reflexivity.
  - intros b Hb HE. pose proof (lookup_lt_Some _ _ _ Hb) as Hlt.
    destruct (Z.ltb_spec 4 (Z.of_nat (length data))); [|lia].
    change (Z.to_nat 4) with 4%nat. rewrite Hb. cbn [rbind].
    destruct (Byte.eqb b "E") eqn:E; [apply Byte.byte_dec_bl in E; contradiction|].
    reflexivity.
Qed.

Lemma split_isf_header_no_marker_witness :
  split_isf_header 1 (Bytes.of_string "abc") = Raise IndexError /\
  split_isf_header 1 (Bytes.of_string "no marker here") = Raise InvalidFileError.
Proof.
  split.
  - apply (split_isf_header_no_marker 0 (Bytes.of_string "abc")).
    + vm_compute. reflexivity.
    + vm_compute. lia.
  - apply (split_isf_header_no_marker 0 (Bytes.of_string "no marker here"))
      with (b := "a"%byte).
    + vm_compute. reflexivity.
    + reflexivity.
    + discriminate.
Defined.

(** The header that [split_isf_header] returns is never one of the ENV
    mode: its PT_FMT is not ['ENV']. *)
Theorem split_isf_header_not_env depth : forall data header bin_data,
  split_isf_header depth data = Ok (header, bin_data) ->
  exists pt_fmt, header !! "PT_FMT" = Some pt_fmt /\ eq_str pt_fmt "ENV" = false.
Proof.
  induction depth as [|depth IH]; intros data header bin_data; [discriminate|].
  rewrite split_isf_header_S.
  destruct (separator_end data) as [find|]; cbn [rbind]; [|discriminate].
  destruct (splitting_point data find) as [[split data_len]|]; cbn [rbind];
    [|discriminate].
  cbv zeta.
  destruct (parse_isf_header _) as [h|]; cbn [rbind]; [|discriminate].
  unfold getitem.
  destruct (h !! "PT_FMT") as [pt_fmt|] eqn:Hf; cbn [rbind]; [|discriminate].
  destruct (eq_str pt_fmt "ENV") eqn:E.
  - destruct (split_isf_header depth _) as [[h' b']|e] eqn:Hrec.
    + intros [= <- <-]. eapply IH. exact Hrec.
    + destruct e; discriminate.
  - intros [= <- <-]. eauto.
Qed.

Lemma split_isf_header_not_env_witness :
  let data := Bytes.of_string
    ":WFMPRE:PT_FMT ENV;:CURVE #12xy:WFMP:PT_F Y;:CURV #13abcdef" in
  exists header pt_fmt,
    split_isf_header 2 data = Ok (header, Bytes.of_string "abc") /\
    header !! "PT_FMT" = Some pt_fmt /\ eq_str pt_fmt "ENV" = false.
Proof.
  intros data.
  assert (Hd : data_in (split_isf_header 2 data) = Ok (Bytes.of_string "abc"))
    by (vm_compute; reflexivity).
  destruct (split_isf_header 2 data) as [[header bin_data]|e] eqn:E;
    [|discriminate Hd].
  injection Hd as ->.
  destruct (split_isf_header_not_env 2 data header _ E) as (pt_fmt & H1 & H2).
  exists header, pt_fmt. auto.
Defined.

(** The header that [split_isf_header] returns has exactly the keys of the
    schema, each bound to [None] or to a value of the type of its parser. *)
Theorem split_isf_header_header depth data header bin_data :
  split_isf_header depth data = Ok (header, bin_data) ->
  (forall key, is_Some (header !! key) <-> In key schema) /\
  (forall key p v, dispatcher key = Some p -> header !! key = Some v ->
                   v = PyNone \/ has_type p v).
Proof.
  intros H. split.
  - eapply split_isf_header_keys. exact H.
  - eapply split_isf_header_typed. exact H.
Qed.

Lemma split_isf_header_header_witness :
  exists header,
    split_isf_header 1 scenario = Ok (header, [x01; xff; x02]) /\
    is_Some (header !! "WFID") /\
    forall v, header !! "NR_PT" = Some v -> v = PyNone \/ has_type ParseInt v.
Proof.
  assert (Hd : data_in (split_isf_header 1 scenario) = Ok [x01; xff; x02])
    by (vm_compute; reflexivity).
  destruct (split_isf_header 1 scenario) as [[header bin_data]|e] eqn:E;
    [|discriminate Hd].
  injection Hd as ->.
  destruct (split_isf_header_header 1 scenario header _ E) as [Hk Ht].
  exists header. split; [reflexivity|]. split.
  - apply Hk. vm_compute. tauto.
  - intros v Hv. apply (Ht "NR_PT"); [reflexivity | exact Hv].
Defined.

(** In ENV mode with a length that is not negative, the rest of the buffer
    that the recursive call receives is strictly shorter than the buffer. *)
Theorem env_rest_shorter data find split data_len :
  separator_end data = Ok find ->
  splitting_point data find = Ok (split, data_len) ->
  0 <= data_len ->
  (length (Seq.slice data (Some (split + data_len)%Z) None) < length data)%nat.
Proof.
  intros Hs Hp Hn.
  pose proof (separator_end_ge _ _ Hs) as Hfind.
  pose proof (separator_end_nonempty _ _ Hs) as Hlen.
  pose proof (splitting_point_bounds _ _ _ _ Hp) as Hsplit.
  rewrite slice_suffix by lia. rewrite length_drop. lia.
Qed.

Lemma env_rest_shorter_witness :
  (length (Seq.slice scenario (Some (123 + 3)%Z) None) < length scenario)%nat.
Proof.
  apply (env_rest_shorter scenario 121 123 3).
  - vm_compute. reflexivity.
  - vm_compute. reflexivity.
  - lia.
Defined.

(** When the length is negative enough for the rest to be the whole buffer
    again, the recursion of the ENV mode never ends: whatever the depth
    allowed, the call raises RecursionError. *)
Theorem env_recursion_unbounded data find split data_len header :
  separator_end data = Ok find ->
  splitting_point data find = Ok (split, data_len) ->
  parse_isf_header
    (Bytes.decode (Seq.slice data None (Some split))) = Ok header ->
  header !! "PT_FMT" = Some (PyStr "ENV") ->
  Seq.slice data (Some (split + data_len)) None = data ->
  forall depth, split_isf_header depth data = Raise RecursionError.
Proof.
  intros Hs Hp Hh Hf Hrest depth.
  induction depth as [|depth IH]; [reflexivity|].
  rewrite (split_isf_header_env depth data find split data_len header)
    by assumption.
  rewrite Hrest, IH. reflexivity.
Qed.

Lemma env_recursion_unbounded_witness :
  split_isf_header 1000 (Bytes.of_string ":WFMPRE:PT_FMT ENV;:CURVE #3-31")
  = Raise RecursionError.
Proof.
  pose (data := Bytes.of_string ":WFMPRE:PT_FMT ENV;:CURVE #3-31").
  assert (X : field_of (parse_isf_header
                (Bytes.decode (Seq.slice data None (Some 31)))) "PT_FMT"
              = Some (PyStr "ENV")) by (vm_compute; reflexivity).
  destruct (parse_isf_header (Bytes.decode (Seq.slice data None (Some 31))))
    as [header|e] eqn:Hh; [|discriminate X].
  apply (env_recursion_unbounded data 27 31 (-31) header).
  - vm_compute. reflexivity.
  - vm_compute. reflexivity.
  - exact Hh.
  - exact X.
  - vm_compute. reflexivity.
Defined.

(** The result does not depend on the depth allowed, once the depth is
    enough for the call not to raise RecursionError. *)
Theorem split_isf_header_depth depth : forall data depth',
  split_isf_header depth data <> Raise RecursionError ->
  (depth <= depth')%nat ->
  split_isf_header depth' data = split_isf_header depth data.
Proof.
  induction depth as [|depth IH]; intros data depth' Hne Hle;
    [contradiction Hne; reflexivity|].
  destruct depth' as [|depth']; [lia|].
  rewrite !split_isf_header_S in *.
  destruct (separator_end data) as [find|]; cbn [rbind] in *; [|reflexivity].
  destruct (splitting_point data find) as [[split data_len]|]; cbn [rbind] in *;
    [|reflexivity].
  cbv zeta in *.
  destruct (parse_isf_header _) as [h|]; cbn [rbind] in *; [|reflexivity].
  destruct (getitem h "PT_FMT") as [pt_fmt|]; cbn [rbind] in *; [|reflexivity].
  destruct (eq_str pt_fmt "ENV"); [|reflexivity].
  rewrite (IH _ depth'); [reflexivity | | lia].
  intros Hrec. rewrite Hrec in Hne. contradiction Hne. reflexivity.
Qed.

Lemma split_isf_header_depth_witness :
  split_isf_header 1000 scenario = split_isf_header 1 scenario.
Proof.
  apply (split_isf_header_depth 1 scenario 1000).
  - intros H. apply (f_equal data_in) in H. vm_compute in H. discriminate H.
  - lia.
Defined.

(** Outside the ENV mode, with a length that is not negative, the payload
    is made of the bytes after the splitting point, [data_len] of them or
    all that are left: a buffer cut short inside its payload raises
    nothing here, the payload is only shorter. *)
Theorem split_isf_header_payload depth data find split data_len header :
  separator_end data = Ok find ->
  splitting_point data find = Ok (split, data_len) ->
  0 <= data_len ->
  parse_isf_header (Bytes.decode (take (Z.to_nat split) data)) = Ok header ->
  (forall v, header !! "PT_FMT" = Some v -> eq_str v "ENV" = false) ->
  let bin_data := take (Z.to_nat data_len) (drop (Z.to_nat split) data) in
  split_isf_header (S depth) data = Ok (header, bin_data) /\
  Bytes.len bin_data = Z.min data_len (Z.max 0 (Bytes.len data - split)).
Proof.
  intros Hs Hp Hn Hh Hfmt bin_data.
  pose proof (separator_end_ge _ _ Hs) as Hfind.
  pose proof (splitting_point_bounds _ _ _ _ Hp) as Hsplit.
  split.
  - rewrite split_isf_header_S, Hs. cbn [rbind]. rewrite Hp. cbn [rbind].
    cbv zeta. rewrite slice_prefix_any by lia. rewrite Hh. cbn [rbind].
    destruct (proj2 (parse_isf_header_keys _ _ Hh "PT_FMT") schema_PT_FMT)
      as [v Hv].
    unfold getitem. rewrite Hv. cbn [rbind]. rewrite (Hfmt v Hv).
    rewrite slice_middle_any by lia. reflexivity.
  - unfold bin_data, Bytes.len. rewrite length_take, length_drop. lia.
Qed.

Lemma split_isf_header_payload_witness :
  let data := Bytes.of_string ":WFMP:PT_F Y;:CURV #15ab" in
  data_in (split_isf_header 1 data) = Ok (Bytes.of_string "ab").
Proof.
  intros data.
  assert (X : field_of (parse_isf_header
                (Bytes.decode (take (Z.to_nat 22) data))) "PT_FMT"
              = Some (PyStr "Y")) by (vm_compute; reflexivity).
  destruct (parse_isf_header (Bytes.decode (take (Z.to_nat 22) data)))
    as [header|e] eqn:Hh; [|discriminate X].
  destruct (split_isf_header_payload 0 data 20 22 5 header) as [Hrun _].
  - vm_compute. reflexivity.
  - vm_compute. reflexivity.
  - lia.
  - exact Hh.
  - intros v Hv. simpl in X. rewrite X in Hv. injection Hv as <-. reflexivity.
  - rewrite Hrun. reflexivity.
Defined.

(** * Further properties of [parse_isf_header] *)

Lemma header_item_assign remove header kv key p val :
  item_field remove kv = Some (key, p, val) ->
  header_item remove header kv =
  let? v := parse_value p val in Ok (<[key := v]> header).
Proof.
  intros F. rewrite header_item_eq.
  destruct (item_field_schema _ _ _ _ _ F) as [_ H0].
  destruct (Z.eqb_spec (Str.find " " kv) 0); [contradiction|].
  destruct (Z.eqb_spec (Str.find " " kv) (-1)) as [Hm|_].
  - exfalso. unfold item_field in F.
    destruct (Str.find " " kv =? 0); [discriminate F|].
    destruct (split1_find " " kv) as [[_ Hs]|[Hf _]]; [|lia].
    rewrite Hs in F. discriminate F.
  - rewrite F. reflexivity.
Qed.

Lemma for_each_header_unassigned remove key l : forall header header',
  for_each (header_item remove) header l = Ok header' ->
  (forall kv, In kv l -> ~ assigns remove kv key) ->
  header' !! key = header !! key.
Proof.
  induction l as [|kv l IH]; intros header header'; simpl.
  - intros [= <-] _. reflexivity.
  - intros H Hn. apply rbind_Ok in H as (h1 & H1 & H2).
    rewrite (IH h1 header' H2) by (intros kv' Hin; apply Hn; right; exact Hin).
    apply header_item_Ok in H1 as [->|(k & p & val & v & F & _ & ->)];
      [reflexivity|].
    apply lookup_insert_ne. intros ->.
    apply (Hn kv); [left; reflexivity | exists p, val; exact F].
Qed.

(** When a field is given more than once, the last pair wins: the header
    holds the parsed value of the last pair that assigns the key. *)
Theorem last_pair_wins header_text header before kv after key p val :
  parse_isf_header header_text = Ok header ->
  kv_pairs header_text = (before ++ kv :: after)%list ->
  item_field (prefix_of header_text) kv = Some (key, p, val) ->
  (forall kv', In kv' after -> ~ assigns (prefix_of header_text) kv' key) ->
  exists v, parse_value p val = Ok v /\ header !! key = Some v.
Proof.
  unfold parse_isf_header. intros H Hpairs F Hafter.
  rewrite Hpairs, for_each_app in H.
  apply rbind_Ok in H as (h1 & _ & H). simpl in H.
  apply rbind_Ok in H as (h2 & H2 & H).
  rewrite (header_item_assign _ _ _ _ _ _ F) in H2.
  apply rbind_Ok in H2 as (v & Hv & H2). injection H2 as <-.
  exists v. split; [exact Hv|].
  rewrite (for_each_header_unassigned _ key _ _ _ H Hafter).
  apply lookup_insert_eq.
Qed.

Lemma last_pair_wins_witness :
  field_of (parse_isf_header ":WFMPRE:NR_PT 1;BYT_NR 2;NR_PT 3") "NR_PT"
  = Some (PyInt 3).
Proof.
  pose (text := ":WFMPRE:NR_PT 1;BYT_NR 2;NR_PT 3").
  assert (X : field_of (parse_isf_header text) "BYT_NR" = Some (PyInt 2))
    by (vm_compute; reflexivity).
  fold text. destruct (parse_isf_header text) as [header|e] eqn:E;
    [|discriminate X].
  destruct (last_pair_wins text header [":WFMPRE:NR_PT 1"; "BYT_NR 2"]
              "NR_PT 3" [] "NR_PT" ParseInt "3" E) as (v & Hv & Hh).
  - vm_compute. reflexivity.
  - vm_compute. reflexivity.
  - intros kv' [].
  - simpl. rewrite Hh. vm_compute in Hv. injection Hv as <-. reflexivity.
Defined.

(** A pair whose key is not a spelling of a schema field leaves the header
    as it was and raises nothing, whatever its value.  The keys COMP and
    FILTERF are such keys in both dialects: [SCOPE2_HD] binds them to the
    type objects [str] and [int], which are no keys of
    [HEADER_DISPATCHER]. *)
Theorem unknown_keys_ignored :
  (forall remove header key val,
     key <> EmptyString -> Str.find " " key = -1 ->
     canonical remove key = None ->
     header_item remove header (key +:+ " " +:+ val) = Ok header) /\
  (forall remove, remove = ":WFMPRE:" \/ remove = ":WFMP:" ->
     canonical remove "COMP" = None /\ canonical remove "FILTERF" = None /\
     forall header val,
       header_item remove header ("COMP " +:+ val) = Ok header /\
       header_item remove header ("FILTERF " +:+ val) = Ok header).
Proof.
  assert (G : forall remove header key val,
             key <> EmptyString -> Str.find " " key = -1 ->
             canonical remove key = None ->
             header_item remove header (key +:+ " " +:+ val) = Ok header).
  { intros remove header key val Hne Hk Hc.
    change (" " +:+ val) with (String " " val).
    rewrite header_item_key by assumption. rewrite Hc. reflexivity. }
  split; [exact G|].
  intros remove [-> | ->]; repeat split; vm_compute; reflexivity.
Qed.

(** * The correcting table *)

Lemma dict_update_lookup_Some {V} (items : list (string * V)) :
  forall (d : gmap string V) k v,
    dict_update d items !! k = Some v ->
    In (k, v) items \/ d !! k = Some v.
Proof.
  induction items as [|[k' v'] items IH]; intros d k v H; [right; exact H|].
  change (dict_update (<[k' := v']> d) items !! k = Some v) in H.
  apply IH in H as [H|H]; [left; right; exact H|].
  destruct (String.string_dec k' k) as [->|Hne].
  - rewrite lookup_insert_eq in H. injection H as ->. left. left. reflexivity.
  - rewrite lookup_insert_ne in H by exact Hne. right. exact H.
Qed.

(** [CORRECTING_HD] sends the long and the short spelling of every schema
    field to that field, and every name it yields is a key of
    [HEADER_DISPATCHER]: the test [key in HEADER_DISPATCHER] fails only for
    [None] and for the two type objects. *)
Theorem CORRECTING_HD_schema :
  (forall field, In field schema ->
     spelling SCOPE1_HD field = field /\
     CORRECTING_HD !! field = Some (Name field) /\
     CORRECTING_HD !! spelling SCOPE2_HD field = Some (Name field)) /\
  (forall key field, CORRECTING_HD !! key = Some (Name field) ->
     In field schema /\ is_Some (dispatcher field)).
Proof.
  split.
  - intros field H. unfold schema in H. simpl in H.
    repeat (destruct H as [<-|H]); [..|destruct H];
      repeat split; vm_compute; reflexivity.
  - intros key field H. unfold CORRECTING_HD in H.
    apply dict_update_lookup_Some in H as [H|H];
      [|apply dict_update_lookup_Some in H as [H|H];
        [|rewrite lookup_empty in H; discriminate H]].
    + unfold SCOPE2_HD in H. simpl in H.
      repeat (destruct H as [H|H];
              [first [discriminate H | injection H as <- <-]|]);
        try (destruct H);
        (split; [vm_compute; tauto | vm_compute; eauto]).
    + unfold SCOPE1_HD in H. simpl in H.
      repeat (destruct H as [H|H];
              [first [discriminate H | injection H as <- <-]|]);
        try (destruct H);
        (split; [vm_compute; tauto | vm_compute; eauto]).
Qed.

(** * The units: quotes around XUNIT and YUNIT *)

(** [lstrip] removes a prefix made of the characters, and what is left
    does not begin with one of them. *)
Lemma lstrip_pieces chars s :
  exists a, s = a +:+ Str.lstrip chars s /\
            Str.lstrip chars a = EmptyString /\
            Str.lstrip chars (Str.lstrip chars s) = Str.lstrip chars s.
Proof.
  induction s as [|c s (a & Hs & Ha & Hl)]; simpl.
  - exists EmptyString. repeat split.
  - destruct (Str.mem c chars) eqn:E.
    + exists (String c a). repeat split; [|simpl; rewrite E; exact Ha | exact Hl].
      change (String c s = String c (a +:+ Str.lstrip chars s)). congruence.
    + exists EmptyString. repeat split. simpl. rewrite E. reflexivity.
Qed.

Lemma rstrip_pieces chars s :
  exists b, s = Str.rstrip chars s +:+ b /\
            Str.lstrip chars b = EmptyString /\
            Str.rstrip chars (Str.rstrip chars s) = Str.rstrip chars s.
Proof.
  induction s as [|c s (b & Hs & Hb & Hr)]; simpl.
  - exists EmptyString. repeat split.
  - destruct (Str.rstrip chars s) as [|d r] eqn:Er.
    + destruct (Str.mem c chars) eqn:E.
      * exists (String c b). repeat split; [|simpl; rewrite E; exact Hb].
        change (EmptyString +:+ b) with b in Hs.
        change (EmptyString +:+ String c b) with (String c b). congruence.
      * exists b. repeat split; [|exact Hb | simpl; rewrite E; reflexivity].
        change (String c s = String c (EmptyString +:+ b)). congruence.
    + exists b. repeat split; [|exact Hb|].
      * change (String c s = String c (String d r +:+ b)). congruence.
      * change (Str.rstrip chars (String c (String d r)))
          with (match Str.rstrip chars (String d r) with
                | EmptyString =>
                    if Str.mem c chars then EmptyString else String c EmptyString
                | r' => String c r'
                end).
        rewrite Hr. reflexivity.
Qed.

Lemma length_append (a b : string) :
  String.length (a +:+ b) = (String.length a + String.length b)%nat.
Proof.
  induction a as [|x a IH]; [reflexivity|].
  change (S (String.length (a +:+ b)) = S (String.length a + String.length b)).
  rewrite IH. reflexivity.
Qed.

(** Stripping on the right keeps the first character of what is left. *)
Lemma lstrip_rstrip chars t :
  Str.lstrip chars t = t ->
  Str.lstrip chars (Str.rstrip chars t) = Str.rstrip chars t.
Proof.
  destruct t as [|c t]; [reflexivity|]. intros H.
  assert (E : Str.mem c chars = false).
  { simpl in H. destruct (Str.mem c chars); [|reflexivity].
    exfalso. destruct (lstrip_pieces chars t) as (a & Ht & _).
    apply (f_equal String.length) in Ht. apply (f_equal String.length) in H.
    rewrite length_append in Ht. simpl in H. lia. }
  simpl. destruct (Str.rstrip chars t); rewrite ?E; simpl; rewrite ?E; reflexivity.
Qed.

(** The value stored for XUNIT and YUNIT is the text of the value without
    the double quotes at its two ends, all of them: what is cut on each
    side is made of quotes only, and what is kept neither begins nor ends
    with a quote. *)
Theorem units_lose_their_quotes (val : string) :
  exists s a b,
    parse_value ParseUnquote val = Ok (PyStr s) /\
    val = a +:+ s +:+ b /\
    Str.lstrip [double_quote] a = EmptyString /\
    Str.lstrip [double_quote] b = EmptyString /\
    Str.lstrip [double_quote] s = s /\
    Str.rstrip [double_quote] s = s.
Proof.
  destruct (lstrip_pieces [double_quote] val) as (a & Ha & Ha' & Hl).
  destruct (rstrip_pieces [double_quote] (Str.lstrip [double_quote] val))
    as (b & Hb & Hb' & Hr).
  exists (Str.strip [double_quote] val), a, b. unfold Str.strip.
  repeat split; try assumption.
  - rewrite <- Hb. exact Ha.
  - apply lstrip_rstrip. exact Hl.
Qed.

(** * The decoder: claim C6 and further properties *)

(** C6, amended: for every header as [parse_isf_header] builds them, each
    field of the schema present and holding [None] or a value of its type,
    with 0 <= NR_PT < 2^60 and an integer under BYT_NR, and for every
    payload whose length is not NR_PT * BYT_NR, the decoder raises and
    returns no array; when BYT_NR is 1, 2, 4 or 8 and the length is no
    multiple of BYT_NR, the exception is ValueError, from
    [np.fromstring]. *)
Theorem decode_samples_length_mismatch header bin_data n b :
  typed header ->
  (forall key, In key schema -> is_Some (header !! key)) ->
  header !! "NR_PT" = Some (PyInt n) ->
  header !! "BYT_NR" = Some (PyInt b) ->
  0 <= n < Numpy.max_rows ->
  Bytes.len bin_data <> n * b ->
  (exists e, decode_samples header bin_data = Raise e) /\
  (forall size,
     Numpy.itemsize (PyInt b) = Ok size ->
     (length bin_data mod size <> 0)%nat ->
     decode_samples header bin_data = Raise ValueError).
Proof.
  intros _ Hkeys Hn Hb Hn0 Hlen. split.
  - destruct (decode_samples header bin_data) as [array|e] eqn:E; [|eauto].
    exfalso. apply decode_samples_Ok in E
      as (n' & b' & size & bo & bf & raw & Hn' & Hb' & _ & _ & Hsize & Hraw
          & Hcount & _).
    rewrite Hn in Hn'. injection Hn' as <-.
    rewrite Hb in Hb'. injection Hb' as <-.
    apply itemsize_value in Hsize as [Hsz Hpos].
    apply fromstring_Ok in Hraw; [|exact Hpos].
    apply Hlen. unfold Bytes.len. rewrite Hraw. nia.
  - intros size Hsize Hmod.
    exact (decode_samples_not_multiple _ _ _ _ Hkeys Hb Hsize Hmod).
Qed.

Lemma decode_samples_length_mismatch_witness :
  let data := app (Bytes.of_string
    ":WFMPRE:BYT_NR 1;BN_FMT RI;BYT_OR LSB;NR_PT 3;PT_OFF 0;XINCR 1.0;XZERO 0.0;YOFF 0.0;YMULT 2.0;YZERO 0.0;PT_FMT Y;:CURVE #12")
    [x01; xff] in
  exists e, parse_isf_data 1 (DataBytes data) false = Raise e.
Proof.
  intros data. pose (r := split_isf_header 1 data).
  assert (Hd : data_in r = Ok [x01; xff]) by (vm_compute; reflexivity).
  assert (H1 : field_of (header_in r) "NR_PT" = Some (PyInt 3))
    by (vm_compute; reflexivity).
  assert (H2 : field_of (header_in r) "BYT_NR" = Some (PyInt 1))
    by (vm_compute; reflexivity).
  unfold parse_isf_data. cbv zeta. change (as_bytes (DataBytes data)) with data.
  destruct (split_isf_header 1 data) as [[header bin_data]|e] eqn:E;
    subst r; [|discriminate Hd].
  unfold field_of, header_in in *. injection Hd as ->. cbn [rbind].
  destruct (decode_samples_length_mismatch header [x01; xff] 3 1)
    as [[e He] _].
  - eapply split_isf_header_typed. exact E.
  - intros key Hk. eapply split_isf_header_keys; eassumption.
  - exact H1.
  - exact H2.
  - unfold Numpy.max_rows. lia.
  - vm_compute. discriminate.
  - exists e. rewrite He. reflexivity.
Defined.

(** When the decoder returns an array for a header with NR_PT an int64
    below 2^60, BYT_NR is one of the widths 1, 2, 4 and 8, the
    array has max(NR_PT, 0) rows and the payload had exactly
    max(NR_PT, 0) * BYT_NR bytes; when the array has a row, every field the
    decoder computes with was present and of its type, and the payload
    decodes to as many raw samples as the array has rows. *)
Theorem decode_samples_returns header bin_data array :
  typed header ->
  (forall n, header !! "NR_PT" = Some (PyInt n) ->
             Numpy.int64_min <= n < Numpy.max_rows) ->
  decode_samples header bin_data = Ok array ->
  exists n b size,
    header !! "NR_PT" = Some (PyInt n) /\
    header !! "BYT_NR" = Some (PyInt b) /\
    Numpy.itemsize (PyInt b) = Ok size /\
    length array = Z.to_nat n /\
    Bytes.len bin_data = Z.max n 0 * b /\
    (array <> [] ->
     exists c raw,
       calibrated_by header c /\
       raw_samples c bin_data = Ok raw /\
       length raw = length array).
Proof.
  intros _ _ H. pose proof H as H'.
  apply decode_samples_Ok in H'
    as (n & b & size & bo & bf & raw & Hn & Hb & _ & _ & Hsize & Hraw
        & Hcount & Harr & Hcal).
  exists n, b, size.
  split; [exact Hn|]. split; [exact Hb|]. split; [exact Hsize|].
  split; [exact Harr|]. split.
  - apply itemsize_value in Hsize as [Hsz Hpos].
    apply fromstring_Ok in Hraw; [|exact Hpos].
    unfold Bytes.len. rewrite Hraw. nia.
  - intros Harray. destruct (Hcal Harray) as [c Hc].
    rewrite (decode_samples_calibrated _ _ _ Hc) in H.
    apply rbind_Ok in H as (raw' & Hraw' & H).
    apply columns_Ok in H as [Hlen Hlen'].
    rewrite !length_map in Hlen. rewrite !length_map in Hlen'.
    exists c, raw'. split; [exact Hc|]. split; [exact Hraw'|]. lia.
Qed.

Lemma decode_samples_returns_witness :
  match split_isf_header 1 scenario with
  | Ok (header, bin_data) =>
      exists n b,
        header !! "NR_PT" = Some (PyInt n) /\
        header !! "BYT_NR" = Some (PyInt b) /\
        Bytes.len bin_data = Z.max n 0 * b
  | Raise _ => False
  end.
Proof.
  assert (P : match split_isf_header 1 scenario with
              | Ok (header, bin_data) =>
                  match decode_samples header bin_data with
                  | Ok _ => true
                  | Raise _ => false
                  end
              | Raise _ => false
              end = true) by (vm_compute; reflexivity).
  assert (N : field_of (header_in (split_isf_header 1 scenario)) "NR_PT"
              = Some (PyInt 3)) by (vm_compute; reflexivity).
  destruct (split_isf_header 1 scenario) as [[header bin_data]|e] eqn:E;
    [|discriminate P].
  destruct (decode_samples header bin_data) as [array|e] eqn:D;
    [|discriminate P].
  unfold field_of, header_in in N.
  destruct (decode_samples_returns header bin_data array)
    as (n & b & size & Hn & Hb & _ & _ & Hlen & _).
  - eapply split_isf_header_typed. exact E.
  - intros n Hn. rewrite N in Hn. injection Hn as <-.
    unfold Numpy.int64_min, Numpy.max_rows. lia.
  - exact D.
  - exists n, b. repeat split; assumption.
Defined.

Lemma parse_isf_data_split depth data with_header header bin_data :
  split_isf_header depth (as_bytes data) = Ok (header, bin_data) ->
  parse_isf_data depth data with_header =
  let? array := decode_samples header bin_data in
  if with_header then Ok (array, Some header) else Ok (array, None).
Proof.
  intros H. unfold parse_isf_data. cbv zeta. rewrite H. reflexivity.
Qed.

Lemma decode_samples_no_width header bin_data :
  (forall key, In key schema -> is_Some (header !! key)) ->
  header !! "BYT_NR" = Some PyNone ->
  decode_samples header bin_data = Raise TypeError.
Proof.
  intros Hkeys Hw. pose proof (decoder_fields _ Hkeys) as Hin.
  unfold decode_samples, getitem.
  destruct (Hin "NR_PT") as [v1 ->]; [simpl; tauto|].
  destruct (Hin "YOFF") as [v2 ->]; [simpl; tauto|].
  destruct (Hin "YMULT") as [v3 ->]; [simpl; tauto|].
  destruct (Hin "YZERO") as [v4 ->]; [simpl; tauto|].
  destruct (Hin "PT_OFF") as [v5 ->]; [simpl; tauto|].
  destruct (Hin "XINCR") as [v6 ->]; [simpl; tauto|].
  destruct (Hin "XZERO") as [v7 ->]; [simpl; tauto|].
  destruct (Hin "BYT_OR") as [v8 ->]; [simpl; tauto|].
  destruct (Hin "BN_FMT") as [v9 ->]; [simpl; tauto|].
  rewrite Hw. reflexivity.
Qed.

(** The decoder has returned an array with a row: none of the fields it
    computes with is [None]. *)
Lemma decode_samples_row_fields header bin_data array key :
  decode_samples header bin_data = Ok array ->
  array <> [] ->
  In key numeric_fields ->
  header !! key <> Some PyNone.
Proof.
  intros D Harray Hkey.
  apply decode_samples_Ok in D as (n & b & size & bo & bf & raw & _ & _ & _
                                   & _ & _ & _ & _ & _ & Hcal).
  destruct (Hcal Harray) as [c Hc].
  destruct Hc as (H1 & H2 & H3 & H4 & H5 & H6 & H7 & _ & _ & H10 & _).
  unfold numeric_fields in Hkey. simpl in Hkey.
  repeat (destruct Hkey as [<-|Hkey]); [..|destruct Hkey]; congruence.
Qed.

(** [parse_isf_header] lets fields be missing; [parse_isf_data] raises for
    a missing field as soon as a sample meets it.  With [None] under
    BYT_NR the exception is TypeError, from the data type ['<iNone'];
    with [None] under NR_PT it raises; with [None] under PT_OFF, XINCR or
    XZERO it raises when 0 < NR_PT < 2^60; with [None] under YOFF, YMULT or
    YZERO it raises when the payload is not empty. *)
Theorem parse_isf_data_missing_field depth data with_header header bin_data key :
  split_isf_header depth (as_bytes data) = Ok (header, bin_data) ->
  header !! key = Some PyNone ->
  (key = "BYT_NR" ->
   parse_isf_data depth data with_header = Raise TypeError) /\
  (key = "NR_PT" ->
   exists e, parse_isf_data depth data with_header = Raise e) /\
  (In key ["PT_OFF"; "XINCR"; "XZERO"] ->
   forall n,
     header !! "NR_PT" = Some (PyInt n) -> 0 < n < Numpy.max_rows ->
     exists e, parse_isf_data depth data with_header = Raise e) /\
  (In key ["YOFF"; "YMULT"; "YZERO"] ->
   bin_data <> [] ->
   exists e, parse_isf_data depth data with_header = Raise e).
Proof.
  intros Hsplit Hnone.
  rewrite (parse_isf_data_split _ _ _ _ _ Hsplit).
  assert (Hrow : forall array,
             decode_samples header bin_data = Ok array ->
             In key numeric_fields -> array = []).
  { intros array D Hkey. destruct array as [|row array]; [reflexivity|].
    exfalso.
    apply (decode_samples_row_fields _ _ _ key D);
      [discriminate | exact Hkey | exact Hnone]. }
  split; [|split; [|split]].
  - intros ->. rewrite decode_samples_no_width; [reflexivity | | exact Hnone].
    intros k Hk. eapply split_isf_header_keys; eassumption.
  - intros ->.
    destruct (decode_samples header bin_data) as [array|e] eqn:D;
      cbn [rbind]; [|eauto].
    exfalso. apply decode_samples_Ok in D as (n & b & size & bo & bf & raw
                                             & Hn & _).
    congruence.
  - intros Hkey n Hn Hpos.
    destruct (decode_samples header bin_data) as [array|e] eqn:D;
      cbn [rbind]; [|eauto].
    exfalso. pose proof (Hrow array eq_refl) as Hempty.
    apply decode_samples_Ok in D as (n' & b & size & bo & bf & raw
                                     & Hn' & _ & _ & _ & _ & _ & _ & Harr & _).
    rewrite Hn in Hn'. injection Hn' as <-.
    rewrite Hempty in Harr.
    + simpl in Harr. lia.
    + unfold numeric_fields. simpl in Hkey. simpl. tauto.
  - intros Hkey Hdata.
    destruct (decode_samples header bin_data) as [array|e] eqn:D;
      cbn [rbind]; [|eauto].
    exfalso. pose proof (Hrow array eq_refl) as Hempty.
    apply decode_samples_Ok in D as (n & b & size & bo & bf & raw
                                     & _ & _ & _ & _ & Hsize & Hraw & Hcount
                                     & Harr & _).
    apply itemsize_value in Hsize as [_ Hsz].
    apply fromstring_Ok in Hraw; [|exact Hsz].
    rewrite Hempty in Harr.
    + simpl in Harr. destruct bin_data; [congruence|]. simpl in Hraw. nia.
    + unfold numeric_fields. simpl in Hkey. simpl. tauto.
Qed.

Lemma parse_isf_data_missing_field_witness :
  let data := app (Bytes.of_string
    ":WFMPRE:BN_FMT RI;BYT_OR LSB;NR_PT 3;PT_OFF 0;XINCR 1.0;XZERO 0.0;YOFF 0.0;YMULT 2.0;YZERO 0.0;PT_FMT Y;:CURVE #13")
    [x01; xff; x02] in
  parse_isf_data 1 (DataBytes data) false = Raise TypeError.
Proof.
  intros data. pose (r := split_isf_header 1 data).
  assert (Hd : data_in r = Ok [x01; xff; x02]) by (vm_compute; reflexivity).
  assert (Hw : field_of (header_in r) "BYT_NR" = Some PyNone)
    by (vm_compute; reflexivity).
  destruct (split_isf_header 1 data) as [[header bin_data]|e] eqn:E;
    subst r; [|discriminate Hd].
  destruct (parse_isf_data_missing_field 1 (DataBytes data) false header
              bin_data "BYT_NR" E Hw) as (Hkind & _).
  exact (Hkind eq_refl).
Defined.

(** * Reading back what was written *)

Lemma byte_of_Z_value z : Z.of_N (Byte.to_N (byte_of_Z z)) = z mod 256.
Proof.
  unfold byte_of_Z. pose proof (Z.mod_pos_bound z 256 ltac:(lia)) as Hb.
  destruct (Byte.of_N (Z.to_N (z mod 256))) as [b|] eqn:E.
  - apply Byte.to_of_N in E. rewrite E. lia.
  - apply Byte.of_N_None_iff in E. lia.
Qed.

Lemma le_value_cons b l :
  Numpy.le_value (b :: l) = Z.of_N (Byte.to_N b) + 256 * Numpy.le_value l.
Proof. reflexivity. Qed.

Lemma le_value_le_bytes n : forall u,
  Numpy.le_value (le_bytes n u) = u mod 256 ^ Z.of_nat n.
Proof.
  induction n as [|n IH]; intros u.
  - simpl. rewrite Z.mod_1_r. reflexivity.
  - change (le_bytes (S n) u) with (byte_of_Z u :: le_bytes n (u / 256)).
    rewrite le_value_cons, byte_of_Z_value, IH.
    rewrite Nat2Z.inj_succ, Z.pow_succ_r by lia.
    rewrite Z.rem_mul_r by lia. reflexivity.
Qed.

Lemma length_le_bytes n : forall u, length (le_bytes n u) = n.
Proof.
  induction n as [|n IH]; intros u; simpl; [reflexivity|]. rewrite IH. reflexivity.
Qed.

Lemma le_value_bound l : 0 <= Numpy.le_value l < 256 ^ Z.of_nat (length l).
Proof.
  induction l as [|b l IH].
  - simpl. unfold Numpy.le_value. simpl. lia.
  - rewrite le_value_cons.
    change (length (b :: l)) with (S (length l)).
    rewrite Nat2Z.inj_succ, Z.pow_succ_r by lia.
    pose proof (Byte.to_N_bounded b). lia.
Qed.

Lemma pow_256 n : 256 ^ Z.of_nat n = 2 ^ (8 * Z.of_nat n).
Proof. rewrite Z.pow_mul_r by lia. reflexivity. Qed.

Lemma pow_2_half n : (0 < n)%nat ->
  2 ^ (8 * Z.of_nat n) = 2 * 2 ^ (8 * Z.of_nat n - 1).
Proof.
  intros H. rewrite <- Z.pow_succ_r by lia. f_equal. lia.
Qed.

Lemma length_item_bytes big size v : length (item_bytes big size v) = size.
Proof.
  unfold item_bytes. destruct big; rewrite ?length_rev, length_le_bytes; reflexivity.
Qed.

(** One item read back. *)
Lemma item_value_item_bytes big signed size v :
  (0 < size)%nat -> in_range signed size v ->
  Numpy.item_value big signed (item_bytes big size v) = v.
Proof.
  intros Hsize Hv. unfold Numpy.item_value.
  rewrite length_item_bytes.
  assert (E : Numpy.le_value
                (if big then rev (item_bytes big size v) else item_bytes big size v)
              = v mod 2 ^ (8 * Z.of_nat size)).
  { unfold item_bytes. destruct big; rewrite ?rev_involutive, le_value_le_bytes;
      rewrite pow_256; apply Z.mod_mod; lia. }
  rewrite E. clear E.
  pose proof (pow_2_half size Hsize) as Hhalf.
  assert (Hpos : 0 < 2 ^ (8 * Z.of_nat size - 1)) by (apply Z.pow_pos_nonneg; lia).
  unfold in_range in Hv. destruct signed; cbn [andb].
  - destruct (Z.lt_ge_cases v 0) as [Hneg|Hnn].
    + assert (Hm : v mod 2 ^ (8 * Z.of_nat size) = v + 2 ^ (8 * Z.of_nat size)).
      { symmetry. apply (Z.mod_unique _ _ (-1)); lia. }
      rewrite Hm. destruct (Z.leb_spec (2 ^ (8 * Z.of_nat size - 1))
                              (v + 2 ^ (8 * Z.of_nat size))); lia.
    + rewrite Z.mod_small by lia.
      destruct (Z.leb_spec (2 ^ (8 * Z.of_nat size - 1)) v); lia.
  - apply Z.mod_small. lia.
Qed.

(** One item is in the range of its data type. *)
Lemma item_value_range big signed size item :
  (0 < size)%nat -> length item = size ->
  in_range signed size (Numpy.item_value big signed item).
Proof.
  intros Hsize Hlen. unfold Numpy.item_value.
  set (l := if big then rev item else item).
  assert (Hl : length l = size) by (unfold l; destruct big; rewrite ?length_rev; exact Hlen).
  pose proof (le_value_bound l) as Hb. rewrite Hl, pow_256 in Hb.
  rewrite Hlen.
  pose proof (pow_2_half size Hsize) as Hhalf.
  unfold in_range. destruct signed; cbn [andb].
  - destruct (Z.leb_spec (2 ^ (8 * Z.of_nat size - 1)) (Numpy.le_value l)); lia.
  - lia.
Qed.

Lemma chunk_at size chunks :
  Forall (fun c : list byte => length c = size) chunks ->
  forall i c, chunks !! i = Some c ->
              take size (drop (i * size) (List.concat chunks)) = c.
Proof.
  induction 1 as [|c0 chunks Hc0 _ IH]; intros i c Hi; [destruct i; discriminate Hi|].
  destruct i as [|i]; simpl in *.
  - injection Hi as <-. apply take_app_length'. symmetry. exact Hc0.
  - rewrite drop_app_add' by (symmetry; exact Hc0). apply IH. exact Hi.
Qed.

Lemma length_chunks size chunks :
  Forall (fun c : list byte => length c = size) chunks ->
  length (List.concat chunks) = (length chunks * size)%nat.
Proof.
  induction 1 as [|c0 chunks Hc0 _ IH]; simpl; [reflexivity|].
  rewrite length_app, IH, Hc0. reflexivity.
Qed.

Lemma fromstring_tobytes big signed size vs :
  (0 < size)%nat ->
  Forall (in_range signed size) vs ->
  Numpy.fromstring big signed size (tobytes big size vs) = Ok vs.
Proof.
  intros Hsize Hvs. unfold Numpy.fromstring, tobytes.
  assert (Hchunks : Forall (fun c : list byte => length c = size)
                           (map (item_bytes big size) vs)).
  { apply Forall_forall. intros c Hc. apply list_elem_of_In, in_map_iff in Hc
      as (v & <- & _). apply length_item_bytes. }
  rewrite (length_chunks size _ Hchunks), length_map.
  rewrite Nat.Div0.mod_mul, Nat.div_mul by lia. simpl. f_equal.
  apply list_eq. intros i. rewrite lookup_map.
  destruct (vs !! i) as [v|] eqn:Hv.
  - rewrite lookup_seq_lt by (eapply lookup_lt_Some; exact Hv). simpl.
    rewrite (chunk_at size _ Hchunks i (item_bytes big size v)).
    + f_equal. apply item_value_item_bytes; [exact Hsize|].
      rewrite Forall_forall in Hvs. apply Hvs. eapply list_elem_of_lookup_2. exact Hv.
    + rewrite lookup_map, Hv. reflexivity.
  - rewrite lookup_seq_ge by (apply lookup_ge_None; exact Hv). reflexivity.
Qed.

Lemma map_snd_zip {A B} (xs : list A) : forall ys : list B,
  length xs = length ys -> map snd (zip xs ys) = ys.
Proof.
  induction xs as [|x xs IH]; intros [|y ys] H; simpl in *; try discriminate;
    [reflexivity|].
  rewrite IH by lia. reflexivity.
Qed.

(** The header of the scenario is calibrated. *)
Lemma scenario_calibrated :
  match split_isf_header 1 scenario with
  | Ok (header, bin_data) =>
      calibrated_by header
        (Calibration 3 0 1 0 0 2 0 (PyStr "LSB") (PyStr "RI") 1 1) /\
      bin_data = [x01; xff; x02]
  | Raise _ => False
  end.
Proof.
  vm_compute. repeat split; discriminate.
Qed.

(** Samples written in the byte order, the signedness and the width that
    the header declares are read back as they were, and the Y column is
    their calibration. *)
Theorem decode_samples_tobytes header c vs :
  calibrated_by header c ->
  Forall (in_range (eq_str (bn_fmt c) "RI") (size c)) vs ->
  Z.of_nat (length vs) = num_rows c ->
  let bin_data := tobytes (eq_str (byt_or c) "MSB") (size c) vs in
  raw_samples c bin_data = Ok vs /\
  exists array,
    decode_samples header bin_data = Ok array /\
    map snd array = map (y_of (yoff c) (ymult c) (yzero c)) vs.
Proof.
  intros Hc Hvs Hlen bin_data.
  assert (Hraw : raw_samples c bin_data = Ok vs).
  { destruct Hc as (_ & _ & _ & _ & _ & _ & _ & _ & _ & _ & Hsize & _).
    apply itemsize_value in Hsize as [_ Hpos].
    apply fromstring_tobytes; assumption. }
  split; [exact Hraw|].
  rewrite (decode_samples_calibrated _ _ _ Hc), Hraw. cbn [rbind].
  unfold Numpy.columns.
  rewrite !length_map, length_seq, <- Hlen, Nat2Z.id, Nat.eqb_refl.
  eexists. split; [reflexivity|].
  apply map_snd_zip. rewrite !length_map, length_seq. reflexivity.
Qed.

Lemma decode_samples_tobytes_witness :
  match split_isf_header 1 scenario with
  | Ok (header, _) =>
      exists array,
        decode_samples header (tobytes false 1 [5; -7; 100]) = Ok array /\
        map snd array = map (y_of 0 2 0) [5; -7; 100]
  | Raise _ => False
  end.
Proof.
  pose proof scenario_calibrated as H.
  destruct (split_isf_header 1 scenario) as [[header bin_data]|e]; [|exact H].
  destruct H as [Hc _].
  destruct (decode_samples_tobytes header _ [5; -7; 100] Hc) as [_ Hrun].
  - repeat constructor; vm_compute; discriminate.
  - reflexivity.
  - exact Hrun.
Defined.

(** Every raw sample lies in the range of the data type that the header
    declares: signed of BYT_NR bytes when BN_FMT is ['RI'], unsigned
    otherwise. *)
Theorem raw_samples_in_range header c bin_data raw :
  calibrated_by header c ->
  raw_samples c bin_data = Ok raw ->
  Forall (in_range (eq_str (bn_fmt c) "RI") (size c)) raw.
Proof.
  intros Hc Hraw.
  destruct Hc as (_ & _ & _ & _ & _ & _ & _ & _ & _ & _ & Hsize & _).
  apply itemsize_value in Hsize as [_ Hpos].
  unfold raw_samples, Numpy.fromstring in Hraw.
  destruct (Nat.eqb_spec (length bin_data mod size c) 0) as [Hmod|];
    [|discriminate Hraw].
  injection Hraw as <-. apply Forall_forall. intros v Hv.
  apply list_elem_of_In, in_map_iff in Hv as (i & <- & Hi).
  apply in_seq in Hi. apply item_value_range; [exact Hpos|].
  rewrite length_take, length_drop.
  pose proof (Nat.div_mod_eq (length bin_data) (size c)). nia.
Qed.

Lemma raw_samples_in_range_witness :
  Forall (in_range true 1) [1; -1; 2].
Proof.
  pose proof scenario_calibrated as H.
  destruct (split_isf_header 1 scenario) as [[header bin_data]|e]; [|destruct H].
  destruct H as [Hc ->].
  exact (raw_samples_in_range header _ [x01; xff; x02] [1; -1; 2] Hc eq_refl).
Defined.

(** * Further edge behaviour of [split_isf_header] *)

(** A marker at the very end of the buffer: the byte after it is read
    first, and IndexError is raised. *)
Theorem split_isf_header_marker_at_end depth data :
  0 <= Bytes.find curve data ->
  Bytes.len data <= Bytes.find curve data + 5 ->
  split_isf_header (S depth) data = Raise IndexError.
Proof.
  intros Hfound Hend. rewrite split_isf_header_S. unfold separator_end.
  change (Bytes.len curve) with 5. unfold Seq.getitem, Bytes.len in *.
  destruct (Z.ltb_spec (Bytes.find curve data + 5) 0); [lia|].
  destruct (Z.ltb_spec (Bytes.find curve data + 5) (Z.of_nat (length data)));
    [lia|].
  rewrite andb_false_r. reflexivity.
Qed.

Lemma split_isf_header_marker_at_end_witness :
  split_isf_header 1 (Bytes.of_string ":WFMPRE:NR_PT 3;:CURV") = Raise IndexError.
Proof.
  apply split_isf_header_marker_at_end; vm_compute; discriminate.
Defined.

(** In ENV mode, when nothing follows the first payload, the call raises
    InvalidFileError: the recursive call receives an empty buffer, raises
    IndexError, and the except clause turns it into InvalidFileError. *)
Theorem env_incomplete depth data find split data_len header :
  separator_end data = Ok find ->
  splitting_point data find = Ok (split, data_len) ->
  parse_isf_header
    (Bytes.decode (Seq.slice data None (Some split))) = Ok header ->
  header !! "PT_FMT" = Some (PyStr "ENV") ->
  Bytes.len data <= split + data_len ->
  split_isf_header (S (S depth)) data = Raise InvalidFileError.
Proof.
  intros Hs Hp Hh Hf Hlen.
  rewrite (split_isf_header_env (S depth) data find split data_len header)
    by assumption.
  assert (Hrest : Seq.slice data (Some (split + data_len)) None = []).
  { unfold Bytes.len in Hlen. rewrite slice_suffix by lia.
    apply drop_ge. lia. }
  rewrite Hrest. reflexivity.
Qed.

Lemma env_incomplete_witness :
  split_isf_header 2 (Bytes.of_string ":WFMPRE:PT_FMT ENV;:CURVE #12ab")
  = Raise InvalidFileError.
Proof.
  pose (data := Bytes.of_string ":WFMPRE:PT_FMT ENV;:CURVE #12ab").
  assert (X : field_of (parse_isf_header
                (Bytes.decode (Seq.slice data None (Some 29)))) "PT_FMT"
              = Some (PyStr "ENV")) by (vm_compute; reflexivity).
  destruct (parse_isf_header (Bytes.decode (Seq.slice data None (Some 29))))
    as [header|e] eqn:Hh; [|discriminate X].
  apply (env_incomplete 0 data 27 29 2 header).
  - vm_compute. reflexivity.
  - vm_compute. reflexivity.
  - exact Hh.
  - exact X.
  - vm_compute. discriminate.
Defined.

Lemma slice_segment {A} (l : list A) start stop :
  exists pre post, l = (pre ++ Seq.slice l start stop ++ post)%list.
Proof.
  unfold Seq.slice.
  set (a := Z.to_nat match start with Some i => _ | None => 0 end).
  set (n := Z.to_nat _).
  exists (take a l), (drop n (drop a l)).
  rewrite !take_drop. reflexivity.
Qed.

(** The payload returned is a piece of the buffer: consecutive bytes of
    it, unchanged, in the ENV mode too. *)
Theorem split_isf_header_segment depth : forall data header bin_data,
  split_isf_header depth data = Ok (header, bin_data) ->
  exists pre post, data = (pre ++ bin_data ++ post)%list.
Proof.
  induction depth as [|depth IH]; intros data header bin_data; [discriminate|].
  rewrite split_isf_header_S.
  destruct (separator_end data) as [find|]; cbn [rbind]; [|discriminate].
  destruct (splitting_point data find) as [[split data_len]|]; cbn [rbind];
    [|discriminate].
  cbv zeta.
  destruct (parse_isf_header _) as [h|]; cbn [rbind]; [|discriminate].
  destruct (getitem h "PT_FMT") as [pt_fmt|]; cbn [rbind]; [|discriminate].
  destruct (eq_str pt_fmt "ENV").
  - destruct (split_isf_header depth _) as [[h' b']|e] eqn:Hrec.
    + intros [= <- <-]. apply IH in Hrec as (pre & post & Hrest).
      destruct (slice_segment data (Some (split + data_len)) None)
        as (pre' & post' & Hdata).
      exists (pre' ++ pre)%list, (post ++ post')%list.
      rewrite Hdata at 1. rewrite Hrest at 1.
      rewrite <- !app_assoc. reflexivity.
    + destruct e; discriminate.
  - intros [= <- <-]. apply slice_segment.
Qed.

Lemma split_isf_header_segment_witness :
  exists pre post,
    scenario = (pre ++ [x01; xff; x02] ++ post)%list.
Proof.
  assert (Hd : data_in (split_isf_header 1 scenario) = Ok [x01; xff; x02])
    by (vm_compute; reflexivity).
  destruct (split_isf_header 1 scenario) as [[header bin_data]|e] eqn:E;
    [|discriminate Hd].
  injection Hd as ->.
  exact (split_isf_header_segment 1 scenario header _ E).
Defined.

(** * Semicolons around the header text *)

Lemma prefix_app_char c p : forall t,
  Str.find c p = -1 ->
  String.prefix p (t +:+ String c EmptyString) = String.prefix p t.
Proof.
  induction p as [|a p IH]; intros t Hp; [destruct t; reflexivity|].
  apply find_cons in Hp as [Ha Hp].
  destruct t as [|b t].
  - change (EmptyString +:+ String c EmptyString) with (String c EmptyString).
    simpl. destruct (ascii_dec a c); [contradiction | reflexivity].
  - change (String b t +:+ String c EmptyString)
      with (String b (t +:+ String c EmptyString)).
    simpl. destruct (ascii_dec a b); [apply IH; exact Hp | reflexivity].
Qed.

Lemma contains_app_char c p t :
  Str.find c p = -1 ->
  Str.contains p (t +:+ String c EmptyString) = Str.contains p t.
Proof.
  intros Hp. induction t as [|b t IH].
  - change (EmptyString +:+ String c EmptyString) with (String c EmptyString).
    pose proof (prefix_app_char c p EmptyString Hp) as H.
    change (EmptyString +:+ String c EmptyString) with (String c EmptyString) in H.
    cbn [Str.contains]. rewrite H. destruct (String.prefix p EmptyString); reflexivity.
  - change (String b t +:+ String c EmptyString)
      with (String b (t +:+ String c EmptyString)).
    pose proof (prefix_app_char c p (String b t) Hp) as H.
    change (String b t +:+ String c EmptyString)
      with (String b (t +:+ String c EmptyString)) in H.
    cbn [Str.contains]. rewrite H, IH. reflexivity.
Qed.

Lemma rstrip_app_char c t :
  Str.rstrip [c] (t +:+ String c EmptyString) = Str.rstrip [c] t.
Proof.
  induction t as [|b t IH].
  - change (EmptyString +:+ String c EmptyString) with (String c EmptyString).
    simpl. rewrite Ascii.eqb_refl. reflexivity.
  - change (String b t +:+ String c EmptyString)
      with (String b (t +:+ String c EmptyString)).
    cbn [Str.rstrip]. rewrite IH. reflexivity.
Qed.

Lemma lstrip_app_char c t :
  Str.lstrip [c] (t +:+ String c EmptyString) =
  match Str.lstrip [c] t with
  | EmptyString => EmptyString
  | s => s +:+ String c EmptyString
  end.
Proof.
  induction t as [|b t IH].
  - change (EmptyString +:+ String c EmptyString) with (String c EmptyString).
    simpl. rewrite Ascii.eqb_refl. reflexivity.
  - change (String b t +:+ String c EmptyString)
      with (String b (t +:+ String c EmptyString)).
    cbn [Str.lstrip]. destruct (Str.mem b [c]); [exact IH | reflexivity].
Qed.

Lemma kv_pairs_semicolons text :
  kv_pairs (String ";" text) = kv_pairs text /\
  kv_pairs (text +:+ ";") = kv_pairs text.
Proof.
  unfold kv_pairs, Str.strip. split.
  - reflexivity.
  - change (text +:+ ";") with (text +:+ String ";" EmptyString).
    rewrite lstrip_app_char.
    destruct (Str.lstrip [";"%char] text) as [|d s]; [reflexivity|].
    rewrite rstrip_app_char. reflexivity.
Qed.

(** One more semicolon before or after the header text changes nothing
    (and so neither do several): [strip] removes them before the text is
    split. *)
Theorem semicolons_around (header_text : string) :
  parse_isf_header (String ";" header_text) = parse_isf_header header_text /\
  parse_isf_header (header_text +:+ ";") = parse_isf_header header_text.
Proof.
  destruct (kv_pairs_semicolons header_text) as [Hl Hr].
  unfold parse_isf_header, prefix_of. rewrite Hl, Hr. split.
  - cbn [Str.contains]. simpl String.prefix. reflexivity.
  - change (header_text +:+ ";") with (header_text +:+ String ";" EmptyString).
    rewrite contains_app_char by reflexivity. reflexivity.
Qed.

(** * The namespace prefix on any key *)

Lemma prefix_app p s : String.prefix p (p +:+ s) = true.
Proof.
  induction p as [|x p IH]; [destruct s; reflexivity|].
  change (String x p +:+ s) with (String x (p +:+ s)). simpl.
  destruct (ascii_dec x x); [exact IH | contradiction].
Qed.

Lemma remove_from_skip old q : forall s,
  Str.remove_from old (String.length q) (q +:+ s) = Str.remove_from old O s.
Proof.
  induction q as [|x q IH]; intros s; [destruct s; reflexivity|].
  change (String x q +:+ s) with (String x (q +:+ s)). simpl. apply IH.
Qed.

(** [replace] drops the prefix from the front of a key. *)
Lemma remove_all_prefix remove key :
  remove <> EmptyString ->
  Str.remove_all remove (remove +:+ key) = Str.remove_all remove key.
Proof.
  intros Hne. unfold Str.remove_all.
  destruct remove as [|x remove]; [contradiction|].
  change (String x remove +:+ key) with (String x (remove +:+ key)).
  cbn [Str.remove_from].
  change (String x (remove +:+ key)) with (String x remove +:+ key).
  rewrite prefix_app.
  change (Nat.pred (String.length (String x remove))) with (String.length remove).
  apply remove_from_skip.
Qed.

(** The namespace prefix may stand before any key, not only the first: a
    pair gives the same result with and without the prefix that is being
    removed. *)
Theorem prefix_on_every_key remove header key val :
  remove <> EmptyString -> Str.find " " remove = -1 ->
  key <> EmptyString -> Str.find " " key = -1 ->
  header_item remove header ((remove +:+ key) +:+ " " +:+ val) =
  header_item remove header (key +:+ " " +:+ val).
Proof.
  intros Hr1 Hr2 Hk1 Hk2. change (" " +:+ val) with (String " " val).
  rewrite !header_item_key; try assumption.
  - unfold canonical. rewrite remove_all_prefix by exact Hr1. reflexivity.
  - destruct remove; [contradiction | discriminate].
  - apply find_app_none. split; assumption.
Qed.

Lemma prefix_on_every_key_witness :
  parse_isf_header ":WFMPRE:NR_PT 3;:WFMPRE:BYT_NR 2" =
  parse_isf_header ":WFMPRE:NR_PT 3;BYT_NR 2".
Proof.
  unfold parse_isf_header.
  change (prefix_of ":WFMPRE:NR_PT 3;:WFMPRE:BYT_NR 2") with ":WFMPRE:".
  change (prefix_of ":WFMPRE:NR_PT 3;BYT_NR 2") with ":WFMPRE:".
  change (kv_pairs ":WFMPRE:NR_PT 3;:WFMPRE:BYT_NR 2")
    with [":WFMPRE:NR_PT 3"; (":WFMPRE:" +:+ "BYT_NR") +:+ " " +:+ "2"].
  change (kv_pairs ":WFMPRE:NR_PT 3;BYT_NR 2")
    with [":WFMPRE:NR_PT 3"; "BYT_NR" +:+ " " +:+ "2"].
  cbn [for_each].
  destruct (header_item ":WFMPRE:" empty_header ":WFMPRE:NR_PT 3") as [h|e];
    cbn [rbind]; [|reflexivity].
  rewrite (prefix_on_every_key ":WFMPRE:" h "BYT_NR" "2");
    [reflexivity | discriminate | reflexivity | discriminate | reflexivity].
Defined.

(** * The decoder at the edges *)

(** With a calibrated header, 0 <= NR_PT < 2^60, and a payload whose
    length is not NR_PT * BYT_NR, the exception is ValueError: from
    [np.fromstring] when the length is no multiple of BYT_NR, from
    [np.array] when the number of samples is not NR_PT. *)
Theorem calibrated_length_mismatch header c bin_data :
  calibrated_by header c ->
  0 <= num_rows c < Numpy.max_rows ->
  Bytes.len bin_data <> num_rows c * byte_size c ->
  decode_samples header bin_data = Raise ValueError.
Proof.
  intros Hc Hn Hlen. rewrite (decode_samples_calibrated _ _ _ Hc).
  destruct Hc as (_ & _ & _ & _ & _ & _ & _ & _ & _ & _ & Hsize & _).
  apply itemsize_value in Hsize as [Hsz Hpos].
  unfold raw_samples.
  destruct (Numpy.fromstring _ _ _ _) as [raw|e] eqn:Hraw; cbn [rbind].
  - apply fromstring_Ok in Hraw; [|exact Hpos].
    unfold Numpy.columns. rewrite !length_map, length_seq.
    destruct (Nat.eqb_spec (Z.to_nat (num_rows c)) (length raw)) as [Heq|];
      [|reflexivity].
    exfalso. apply Hlen. unfold Bytes.len. rewrite Hraw. nia.
  - apply fromstring_raise in Hraw as ->. reflexivity.
Qed.

Lemma calibrated_length_mismatch_witness :
  match split_isf_header 1 scenario with
  | Ok (header, _) => decode_samples header [x01; xff] = Raise ValueError
  | Raise _ => False
  end.
Proof.
  pose proof scenario_calibrated as P.
  destruct (split_isf_header 1 scenario) as [[header bin_data]|e]; [|exact P].
  destruct P as [Hc _].
  apply (calibrated_length_mismatch header _ [x01; xff] Hc).
  - simpl. unfold Numpy.max_rows. lia.
  - vm_compute. discriminate.
Defined.

Lemma typed_float header key v :
  typed header -> dispatcher key = Some ParseFloat ->
  header !! key = Some v ->
  v = PyNone \/ exists f, v = PyFloat f.
Proof.
  intros Ht Hd Hv. destruct (Ht key ParseFloat v Hd Hv) as [->|H]; [auto|].
  destruct v; simpl in H; try contradiction. eauto.
Qed.

Lemma typed_int header key v :
  typed header -> dispatcher key = Some ParseInt ->
  header !! key = Some v ->
  v = PyNone \/ exists z, v = PyInt z.
Proof.
  intros Ht Hd Hv. destruct (Ht key ParseInt v Hd Hv) as [->|H]; [auto|].
  destruct v; simpl in H; try contradiction. eauto.
Qed.

Lemma float_op_empty op v :
  v = PyNone \/ (exists f, v = PyFloat f) ->
  Numpy.float_op op [] v = Ok [].
Proof. intros [->|[f ->]]; reflexivity. Qed.

Lemma fromstring_empty big signed size :
  Numpy.fromstring big signed size [] = Ok [].
Proof.
  unfold Numpy.fromstring. simpl length.
  rewrite Nat.Div0.mod_0_l, Nat.Div0.div_0_l. reflexivity.
Qed.

(** Without a sample nothing is computed, so nothing is missed: with
    NR_PT <= 0 and an empty payload the decoder returns an array without
    rows, also when PT_OFF, XINCR, XZERO, YOFF, YMULT or YZERO is [None].
    Only the width under BYT_NR has to be one that NumPy knows, and
    PT_OFF, when it is there, an int64. *)
Theorem empty_payload_needs_no_constants header n b size :
  typed header ->
  (forall key, In key schema -> is_Some (header !! key)) ->
  header !! "NR_PT" = Some (PyInt n) ->
  Numpy.int64_min <= n <= 0 ->
  header !! "BYT_NR" = Some (PyInt b) ->
  Numpy.itemsize (PyInt b) = Ok size ->
  (forall p, header !! "PT_OFF" = Some (PyInt p) ->
             Numpy.int64_min <= p <= Numpy.int64_max) ->
  decode_samples header [] = Ok [].
Proof.
  intros Ht Hkeys Hn Hn0 Hb Hsize Hp.
  pose proof (decoder_fields _ Hkeys) as Hin.
  destruct (Hin "YOFF") as [v2 E2]; [simpl; tauto|].
  destruct (Hin "YMULT") as [v3 E3]; [simpl; tauto|].
  destruct (Hin "YZERO") as [v4 E4]; [simpl; tauto|].
  destruct (Hin "PT_OFF") as [v5 E5]; [simpl; tauto|].
  destruct (Hin "XINCR") as [v6 E6]; [simpl; tauto|].
  destruct (Hin "XZERO") as [v7 E7]; [simpl; tauto|].
  destruct (Hin "BYT_OR") as [v8 E8]; [simpl; tauto|].
  destruct (Hin "BN_FMT") as [v9 E9]; [simpl; tauto|].
  pose proof (typed_float header "YOFF" v2 Ht eq_refl E2) as T2.
  pose proof (typed_float header "YMULT" v3 Ht eq_refl E3) as T3.
  pose proof (typed_float header "YZERO" v4 Ht eq_refl E4) as T4.
  pose proof (typed_int header "PT_OFF" v5 Ht eq_refl E5) as T5.
  pose proof (typed_float header "XINCR" v6 Ht eq_refl E6) as T6.
  pose proof (typed_float header "XZERO" v7 Ht eq_refl E7) as T7.
  unfold decode_samples, getitem.
  rewrite Hn, E2, E3, E4, E5, E6, E7, E8, E9, Hb. cbn [rbind].
  rewrite Hsize. cbn [rbind]. rewrite fromstring_empty. cbn [rbind].
  unfold Numpy.arange. replace (Z.to_nat n) with 0%nat by lia.
  cbn [seq map rbind].
  assert (S5 : Numpy.int_sub [] v5 = Ok []).
  { destruct T5 as [->|[p ->]]; [reflexivity|].
    specialize (Hp p E5). unfold Numpy.int_sub.
    destruct (Z.leb_spec Numpy.int64_min p); [|lia].
    destruct (Z.leb_spec p Numpy.int64_max); [|lia]. reflexivity. }
  rewrite S5. cbn [rbind]. unfold Numpy.int_float_op. cbn [map].
  rewrite (float_op_empty _ v6 T6). cbn [rbind].
  rewrite (float_op_empty _ v7 T7). cbn [rbind].
  rewrite (float_op_empty _ v2 T2). cbn [rbind].
  rewrite (float_op_empty _ v3 T3). cbn [rbind].
  rewrite (float_op_empty _ v4 T4). cbn [rbind].
  reflexivity.
Qed.

Lemma empty_payload_needs_no_constants_witness :
  let data := Bytes.of_string ":WFMPRE:BYT_NR 1;NR_PT 0;:CURVE #10" in
  parse_isf_data 1 (DataBytes data) false = Ok ([], None).
Proof.
  intros data. pose (r := split_isf_header 1 data).
  assert (Hd : data_in r = Ok []) by (vm_compute; reflexivity).
  assert (H1 : field_of (header_in r) "NR_PT" = Some (PyInt 0))
    by (vm_compute; reflexivity).
  assert (H2 : field_of (header_in r) "BYT_NR" = Some (PyInt 1))
    by (vm_compute; reflexivity).
  assert (H3 : field_of (header_in r) "PT_OFF" = Some PyNone)
    by (vm_compute; reflexivity).
  unfold parse_isf_data. cbv zeta. change (as_bytes (DataBytes data)) with data.
  destruct (split_isf_header 1 data) as [[header bin_data]|e] eqn:E;
    subst r; [|discriminate Hd].
  unfold field_of, header_in in *. injection Hd as ->. cbn [rbind].
  rewrite (empty_payload_needs_no_constants header 0 1 1%nat).
  - reflexivity.
  - eapply split_isf_header_typed. exact E.
  - intros key Hk. eapply split_isf_header_keys; eassumption.
  - exact H1.
  - unfold Numpy.int64_min. lia.
  - exact H2.
  - reflexivity.
  - intros p Hp. rewrite H3 in Hp. discriminate Hp.
Defined.
